(** * podcast-transcribe-and-diarize: the two-stage pipeline of [main.go]

    A shallow embedding of [main], [transcribeAudio] and [diarizeTranscript].
    The operating system, the network and the standard streams are an explicit
    [World] that every operation reads and updates; every effect is also
    appended to a trace, so that statements such as "no request was sent" or
    "the file was not opened" are statements about that trace.

    Go strings are byte strings, as Rocq's [string] is; [[]byte] is
    [list byte]; [int], [int64] and [time.Duration] are [Z].

    What stands outside the program is modelled as follows.
    - [main] starts after [flag.Parse]: it takes the values of [-audio] and
      [-speakers].
    - A path names an entry of one table of files; an entry can be a regular
      file or a directory, readable and writable or not.
    - The upstream services are a function from requests to responses or
      transport errors; an expired deadline is one of these errors.
    - Closing a file that was opened for reading, and closing a response
      body, succeed.
    - The text level of [encoding/json] is an interface ([JsonCodec]); how a
      JSON value fills a Go struct is modelled after the rules of
      [json.Unmarshal]. *)

From Stdlib Require Import ZArith NArith Ascii String List Lia Bool.
From Stdlib.Strings Require Import Byte.
From stdpp Require Import base option list gmap strings.

#[local] Set Warnings "-register-all".
Local Open Scope Z_scope.
Local Open Scope string_scope.
Local Open Scope list_scope.

(** ** Strings and formatting *)

Definition LF : string := String "010"%char EmptyString.
Definition CR : string := String "013"%char EmptyString.
Definition CRLF : string := CR +:+ LF.
Definition DQ : string := String "034"%char EmptyString.
Definition BSL : string := String "092"%char EmptyString.

(** [[]byte(s)] and [string(b)]: both copy the bytes unchanged. *)
Definition bytes_of (s : string) : list byte := list_byte_of_string s.
Definition string_of (b : list byte) : string := string_of_list_byte b.

(** [strconv.FormatInt(i, 10)], which is what the verb [%d] prints. *)
Definition digit (d : N) : ascii := ascii_of_N (48 + d).

Fixpoint formatBits (fuel : nat) (u : N) (acc : string) : string :=
  match fuel with
  | O => acc
  | S fuel' =>
      let acc' := String (digit (u mod 10)) acc in
      if (u <? 10)%N then acc' else formatBits fuel' (u / 10) acc'
  end.

Definition FormatInt (i : Z) : string :=
  let u := Z.to_N (Z.abs i) in
  (if (i <? 0)%Z then "-" else "") +:+ formatBits (S (N.to_nat (N.log2 u))) u "".

Definition digitValue (c : ascii) : option N :=
  let n := N_of_ascii c in
  if ((48 <=? n) && (n <=? 57))%N then Some (n - 48)%N else None.

(** The number a string of decimal digits denotes, read after [acc]. *)
Fixpoint readDigits (s : string) (acc : N) : option N :=
  match s with
  | EmptyString => Some acc
  | String c rest =>
      match digitValue c with
      | Some d => readDigits rest (acc * 10 + d)
      | None => None
      end
  end.

(** [strconv.ParseInt(s, 10, 0)] on an optional minus sign and digits. *)
Definition ParseInt (s : string) : option Z :=
  match s with
  | EmptyString => None
  | String c rest =>
      if Ascii.eqb c "-"
      then match rest with
           | EmptyString => None
           | _ => option_map (fun n => - Z.of_N n) (readDigits rest 0)
           end
      else option_map Z.of_N (readDigits s 0)
  end.

(** ** Errors and results

    An [error] is modelled by its message (what [%v] prints).  A Go function
    returning [(T, error)] returns a [result T]: the value that accompanies a
    non-nil error is never read by the callers in [main.go]. *)

Definition error : Type := string.

Inductive result (A : Type) : Type :=
| Ok (a : A)
| Err (e : error).
Arguments Ok {A} a.
Arguments Err {A} e.

(** [fmt.Errorf(ctx + "%v", err)] *)
Definition wrap (ctx : string) (e : error) : error := ctx +:+ e.

(** ** Configuration (lines 17-39) *)

Record Config := {
  WhisperURL : string;
  ChatCompletionsURL : string;
  TranscriptionFile : string;
  DiarizedFile : string;
  TranscriptionTimeout : Z;
  DiarizationTimeout : Z;
  MaxResponseBodySize : Z;
  MaxAudioFileSize : Z;
  HTTPTimeout : Z
}.

Definition Second : Z := 1000000000.
Definition Minute : Z := 60 * Second.

Definition config : Config := {|
  WhisperURL := "https://api.openai.com/v1/audio/transcriptions";
  ChatCompletionsURL := "https://api.openai.com/v1/chat/completions";
  TranscriptionFile := "transcription.txt";
  DiarizedFile := "diarized.txt";
  TranscriptionTimeout := 5 * Minute;
  DiarizationTimeout := 2 * Minute;
  MaxResponseBodySize := 10 * 1024 * 1024;
  MaxAudioFileSize := 25 * 1024 * 1024;
  HTTPTimeout := 30 * Second
|}.

(** ** HTTP messages *)

Record Request := {
  Method : string;
  URL : string;
  Header : list (string * string);
  ReqBody : list byte
}.

(** [Body] is the byte sequence the response body delivers until it ends. *)
Record Response := {
  StatusCode : Z;
  Body : list byte
}.

Definition StatusOK : Z := 200.

(** [http.NewRequestWithContext]: fails on a method that is not a token or a
    URL that does not parse; it sets no header. *)
Definition validMethod (m : string) : bool :=
  negb (String.eqb m "") &&
  forallb (fun b => negb (Ascii.eqb b " ")) (list_ascii_of_string m).

Definition NewRequestWithContext (method url : string) (body : list byte) : result Request :=
  if validMethod method
  then Ok {| Method := method; URL := url; Header := []; ReqBody := body |}
  else Err ("net/http: invalid method " +:+ DQ +:+ method +:+ DQ).

(** [Header.Add] appends a value, [Header.Set] replaces the values of the key. *)
Definition Header_Add (k v : string) (r : Request) : Request :=
  {| Method := Method r; URL := URL r;
     Header := Header r ++ [(k, v)]; ReqBody := ReqBody r |}.

Definition Header_Set (k v : string) (r : Request) : Request :=
  {| Method := Method r; URL := URL r;
     Header := List.filter (fun kv => negb (String.eqb kv.1 k)) (Header r) ++ [(k, v)];
     ReqBody := ReqBody r |}.

(** [io.ReadAll(io.LimitReader(r, n))]: the reader hands out at most [n]
    bytes, counting down what is left. *)
Fixpoint limitRead (n : Z) (body : list byte) : list byte :=
  match body with
  | [] => []
  | b :: rest => if (n <=? 0)%Z then [] else b :: limitRead (n - 1) rest
  end.

(** ** The world a run executes in *)

Inductive stream := Stdout | Stderr.

Inductive event :=
| EvStat (name : string)
| EvReadFile (name : string)
| EvWriteFile (name : string) (data : list byte)
| EvOpen (name : string)
| EvCopy (name : string)
| EvClose (name : string)
| EvDo (req : Request)
| EvCloseBody
| EvPrint (s : stream) (text : string).

Inductive kind := Regular | Directory.

(** A directory entry: [n_size] is the size [Stat] reports, [n_data] what a
    read delivers, [n_read] and [n_write] what the process may do with it. *)
Record node := {
  n_kind : kind;
  n_size : Z;
  n_data : list byte;
  n_read : bool;
  n_write : bool
}.

(** [w_fs]: the files, by path.  [w_creat]: whether a path that is not there
    may be created.  [w_env]: the environment variables.  [w_boundary]: the
    boundary the next multipart writer draws.  [w_upstream]: what the network
    answers to a request.  [w_trace]: the effects so far, oldest first. *)
Record World := {
  w_fs : gmap string node;
  w_creat : bool;
  w_env : gmap string string;
  w_boundary : string;
  w_upstream : Request -> result Response;
  w_trace : list event
}.

Definition logs (evs : list event) (w : World) : World :=
  {| w_fs := w_fs w; w_creat := w_creat w; w_env := w_env w;
     w_boundary := w_boundary w; w_upstream := w_upstream w;
     w_trace := w_trace w ++ evs |}.

Definition log (e : event) (w : World) : World := logs [e] w.

Definition set_fs (fs : gmap string node) (w : World) : World :=
  {| w_fs := fs; w_creat := w_creat w; w_env := w_env w;
     w_boundary := w_boundary w; w_upstream := w_upstream w;
     w_trace := w_trace w |}.

(** ** Processes: state passing, with [os.Exit] as an early end *)

Inductive outcome (A : Type) : Type :=
| Returned (a : A)
| Exited (code : Z).
Arguments Returned {A} a.
Arguments Exited {A} code.

Definition Proc (A : Type) : Type := World -> outcome A * World.

Definition ret {A} (a : A) : Proc A := fun w => (Returned a, w).

Definition bind {A B} (c : Proc A) (k : A -> Proc B) : Proc B :=
  fun w =>
    match c w with
    | (Returned a, w') => k a w'
    | (Exited code, w') => (Exited code, w')
    end.

Declare Scope proc_scope.
Delimit Scope proc_scope with proc.
Notation "x <- c ;; k" := (bind c (fun x => k))
  (at level 100, c at next level, right associativity) : proc_scope.
Notation "c ;; k" := (bind c (fun _ => k))
  (at level 100, right associativity) : proc_scope.
Local Open Scope proc_scope.

Definition emit (e : event) : Proc unit := fun w => (Returned tt, log e w).

Definition os_Exit {A} (code : Z) : Proc A := fun w => (Exited code, w).

(** [defer f]: [f] runs when the surrounding function returns; a process that
    exits does not run it. *)
Definition defer {A} (f : Proc unit) (body : Proc A) : Proc A :=
  a <- body ;; f ;; ret a.

(** A fallible step followed by [if err != nil { return "", fmt.Errorf(ctx, err) }]. *)
Definition orReturn {A B} (c : Proc (result A)) (ctx : string)
    (k : A -> Proc (result B)) : Proc (result B) :=
  r <- c ;;
  match r with
  | Ok a => k a
  | Err e => ret (Err (wrap ctx e))
  end.

Notation "'try' x <- c 'onerr' ctx ;; k" := (orReturn c ctx (fun x => k))
  (at level 100, x name, c at next level, ctx at next level, right associativity) : proc_scope.

(** ** Standard streams and environment *)

Definition Fprintf (s : stream) (text : string) : Proc unit := emit (EvPrint s text).
Definition Fprintln (s : stream) (text : string) : Proc unit := emit (EvPrint s (text +:+ LF)).
Definition Printf (text : string) : Proc unit := Fprintf Stdout text.

(** [os.Getenv]: the empty string for an unset variable. *)
Definition os_Getenv (key : string) : Proc string :=
  fun w => (Returned (default "" (w_env w !! key)), w).

(** ** Files *)

Record FileInfo := { Size : Z; IsDir : bool }.

Definition ENOENT (op name : string) : error := op +:+ " " +:+ name +:+ ": no such file or directory".
Definition EACCES (op name : string) : error := op +:+ " " +:+ name +:+ ": permission denied".
Definition EISDIR (op name : string) : error := op +:+ " " +:+ name +:+ ": is a directory".

Definition is_dir (n : node) : bool :=
  match n_kind n with Directory => true | Regular => false end.

Definition os_Stat (name : string) : Proc (result FileInfo) :=
  emit (EvStat name) ;;
  fun w =>
    match w_fs w !! name with
    | Some n => (Returned (Ok {| Size := n_size n; IsDir := is_dir n |}), w)
    | None => (Returned (Err (ENOENT "stat" name)), w)
    end.

Definition os_ReadFile (name : string) : Proc (result (list byte)) :=
  emit (EvReadFile name) ;;
  fun w =>
    match w_fs w !! name with
    | None => (Returned (Err (ENOENT "open" name)), w)
    | Some n =>
        if negb (n_read n) then (Returned (Err (EACCES "open" name)), w)
        else if is_dir n then (Returned (Err (EISDIR "read" name)), w)
        else (Returned (Ok (n_data n)), w)
    end.

(** [os.WriteFile(name, data, perm)]: open with [O_WRONLY|O_CREATE|O_TRUNC],
    write, close.  An existing file keeps its mode; a new one gets the owner
    bits of [perm]. *)
Definition os_WriteFile (name : string) (data : list byte) (perm : Z) : Proc (option error) :=
  emit (EvWriteFile name data) ;;
  fun w =>
    let written (r wr : bool) :=
      {| n_kind := Regular; n_size := Z.of_nat (length data); n_data := data;
         n_read := r; n_write := wr |} in
    match w_fs w !! name with
    | Some n =>
        if is_dir n then (Returned (Some (EISDIR "open" name)), w)
        else if negb (n_write n) then (Returned (Some (EACCES "open" name)), w)
        else (Returned None, set_fs (<[name := written (n_read n) true]> (w_fs w)) w)
    | None =>
        if w_creat w
        then (Returned None,
              set_fs (<[name := written (Z.testbit perm 8) (Z.testbit perm 7)]> (w_fs w)) w)
        else (Returned (Some (EACCES "open" name)), w)
    end.

(** An open file: its name and the entry it was opened on. *)
Record File := { f_name : string; f_node : node }.

Definition os_Open (name : string) : Proc (result File) :=
  emit (EvOpen name) ;;
  fun w =>
    match w_fs w !! name with
    | None => (Returned (Err (ENOENT "open" name)), w)
    | Some n =>
        if negb (n_read n) then (Returned (Err (EACCES "open" name)), w)
        else (Returned (Ok {| f_name := name; f_node := n |}), w)
    end.

(** [file.Close] of a file opened for reading. *)
Definition File_Close (f : File) : Proc (option error) :=
  emit (EvClose (f_name f)) ;; ret None.

(** ** The HTTP client *)

Definition httpClient_Do (req : Request) : Proc (result Response) :=
  emit (EvDo req) ;; fun w => (Returned (w_upstream w req), w).

Definition Body_Close (resp : Response) : Proc (option error) :=
  emit EvCloseBody ;; ret None.

(** ** [path/filepath] and [mime/multipart] *)

Definition isSep (c : ascii) : bool := Ascii.eqb c "/".

(** [filepath.Base]: the last element of the path, trailing separators
    dropped; [.] for the empty path and [/] for one made of separators.
    Both helpers walk the path from its end. *)
Fixpoint stripSeps (rpath : list ascii) : list ascii :=
  match rpath with
  | c :: r => if isSep c then stripSeps r else rpath
  | [] => []
  end.

Fixpoint untilSep (rpath : list ascii) : list ascii :=
  match rpath with
  | c :: r => if isSep c then [] else c :: untilSep r
  | [] => []
  end.

Definition Base (path : string) : string :=
  if String.eqb path "" then "."
  else
    match stripSeps (rev (list_ascii_of_string path)) with
    | [] => "/"
    | stripped => string_of_list_ascii (rev (untilSep stripped))
    end.

Fixpoint escapeQuotes (s : string) : string :=
  match s with
  | EmptyString => EmptyString
  | String c rest =>
      if Ascii.eqb c "092" then BSL +:+ BSL +:+ escapeQuotes rest
      else if Ascii.eqb c "034" then BSL +:+ DQ +:+ escapeQuotes rest
      else String c (escapeQuotes rest)
  end.

(** A [multipart.Writer] over a [bytes.Buffer]: what has been written, the
    boundary, and whether a part has been started. *)
Record Writer := {
  wr_buf : list byte;
  wr_boundary : string;
  wr_started : bool
}.

(** [multipart.NewWriter] draws a random boundary. *)
Definition NewWriter : Proc Writer :=
  fun w => (Returned {| wr_buf := []; wr_boundary := w_boundary w; wr_started := false |}, w).

Definition wr_write (text : list byte) (wr : Writer) : Writer :=
  {| wr_buf := wr_buf wr ++ text; wr_boundary := wr_boundary wr; wr_started := true |}.

Definition headerLine (kv : string * string) : string := kv.1 +:+ ": " +:+ kv.2 +:+ CRLF.

(** The writes below go to the in-memory buffer and cannot fail; the
    [multipart] functions of the same names still return an error value. *)
Definition startPart (header : list (string * string)) (wr : Writer) : Writer :=
  wr_write
    (bytes_of ((if wr_started wr then CRLF else "") +:+ "--" +:+ wr_boundary wr +:+ CRLF
               +:+ String.concat "" (map headerLine header) +:+ CRLF))
    wr.

Definition formFile (fieldname filename : string) (wr : Writer) : Writer :=
  startPart
    [("Content-Disposition",
      "form-data; name=" +:+ DQ +:+ escapeQuotes fieldname +:+ DQ
        +:+ "; filename=" +:+ DQ +:+ escapeQuotes filename +:+ DQ);
     ("Content-Type", "application/octet-stream")]
    wr.

Definition formField (fieldname value : string) (wr : Writer) : Writer :=
  wr_write (bytes_of value)
    (startPart
       [("Content-Disposition",
         "form-data; name=" +:+ DQ +:+ escapeQuotes fieldname +:+ DQ)] wr).

Definition finish (wr : Writer) : Writer :=
  wr_write (bytes_of (CRLF +:+ "--" +:+ wr_boundary wr +:+ "--" +:+ CRLF)) wr.

Definition CreateFormFile (fieldname filename : string) (wr : Writer) : result Writer :=
  Ok (formFile fieldname filename wr).

Definition WriteField (fieldname value : string) (wr : Writer) : result Writer :=
  Ok (formField fieldname value wr).

Definition Writer_Close (wr : Writer) : result Writer := Ok (finish wr).

Definition tspecial (c : ascii) : bool :=
  existsb (Ascii.eqb c) (list_ascii_of_string ("()<>@,;:" +:+ BSL +:+ DQ +:+ "/[]?= ")).

Definition FormDataContentType (wr : Writer) : string :=
  let b := wr_boundary wr in
  "multipart/form-data; boundary=" +:+
  (if existsb tspecial (list_ascii_of_string b) then DQ +:+ b +:+ DQ else b).

(** [io.Copy(part, file)]: the whole content goes into the part; reading a
    directory fails. *)
Definition io_Copy (wr : Writer) (f : File) : Proc (result Writer) :=
  emit (EvCopy (f_name f)) ;;
  if is_dir (f_node f) then ret (Err (EISDIR "read" (f_name f)))
  else ret (Ok (wr_write (n_data (f_node f)) wr)).

(** ** JSON *)

Inductive json :=
| JNull
| JBool (b : bool)
| JNumber (literal : string)
| JString (s : string)
| JArray (items : list json)
| JObject (members : list (string * json)).

(** The text level of [encoding/json] is an interface here: [json_scan] is
    the decoder reading the first JSON value off a stream (or failing, on a
    syntax or read error), [json_Marshal] the encoder. *)
Class JsonCodec := {
  json_scan : list byte -> result json;
  json_Marshal : json -> result (list byte)
}.

Definition kindName (v : json) : string :=
  match v with
  | JNull => "null"
  | JBool _ => "bool"
  | JNumber _ => "number"
  | JString _ => "string"
  | JArray _ => "array"
  | JObject _ => "object"
  end.

(** The message of a [*json.UnmarshalTypeError]. *)
Definition UnmarshalTypeError (v : json) (goType : string) (field : string) : error :=
  "json: cannot unmarshal " +:+ kindName v +:+ " into Go " +:+
  (if String.eqb field "" then "value" else "struct field ." +:+ field) +:+
  " of type " +:+ goType.

(** Object keys match a struct field by name, letter case apart: the folded
    names are compared (ASCII letters to upper case; U+017F and U+212A fold
    to S and K). *)
Definition upper (c : ascii) : ascii :=
  let n := N_of_ascii c in
  if ((97 <=? n) && (n <=? 122))%N then ascii_of_N (n - 32) else c.

Fixpoint foldName (s : string) : string :=
  match s with
  | EmptyString => EmptyString
  | String c r =>
      match r with
      | String c2 r2 =>
          if Ascii.eqb c "197" && Ascii.eqb c2 "191" then String "S" (foldName r2)
          else
            match r2 with
            | String c3 r3 =>
                if Ascii.eqb c "226" && Ascii.eqb c2 "132" && Ascii.eqb c3 "170"
                then String "K" (foldName r3)
                else String (upper c) (foldName r)
            | EmptyString => String (upper c) (foldName r)
            end
      | EmptyString => String (upper c) EmptyString
      end
  end.

Definition fieldMatch (field key : string) : bool :=
  String.eqb (foldName field) (foldName key).

(** Unmarshalling into a Go value that already holds [cur]. *)
Definition decodeString (goField : string) (v : json) (cur : string) : result string :=
  match v with
  | JNull => Ok cur
  | JString s => Ok s
  | _ => Err (UnmarshalTypeError v "string" goField)
  end.

(** A struct with the single field [name]: members are taken in document
    order, those whose key does not match are skipped. *)
Fixpoint decodeMembers {T} (name : string) (decodeField : json -> T -> result T)
    (members : list (string * json)) (cur : T) : result T :=
  match members with
  | [] => Ok cur
  | (k, v) :: rest =>
      if fieldMatch name k
      then match decodeField v cur with
           | Ok cur' => decodeMembers name decodeField rest cur'
           | Err e => Err e
           end
      else decodeMembers name decodeField rest cur
  end.

Definition decodeStruct {T} (name : string) (decodeField : json -> T -> result T)
    (goType goField : string) (v : json) (cur : T) : result T :=
  match v with
  | JNull => Ok cur
  | JObject members => decodeMembers name decodeField members cur
  | _ => Err (UnmarshalTypeError v goType goField)
  end.

(** A slice: [null] makes it nil; an array is decoded element by element,
    into the elements the slice already has and then into zero values. *)
Fixpoint decodeElems {T} (zero : T) (decodeElem : json -> T -> result T)
    (items : list json) (cur : list T) : result (list T) :=
  match items with
  | [] => Ok []
  | v :: items' =>
      match decodeElem v (hd zero cur) with
      | Ok x =>
          match decodeElems zero decodeElem items' (tl cur) with
          | Ok xs => Ok (x :: xs)
          | Err e => Err e
          end
      | Err e => Err e
      end
  end.

Definition decodeSlice {T} (zero : T) (decodeElem : json -> T -> result T)
    (goType goField : string) (v : json) (cur : list T) : result (list T) :=
  match v with
  | JNull => Ok []
  | JArray items => decodeElems zero decodeElem items cur
  | _ => Err (UnmarshalTypeError v goType goField)
  end.

(** ** The response types of the two endpoints *)

Record transcription_res := { Text : string }.
Record message_res := { Content : string }.
Record choice_res := { Message : message_res }.
Record chat_res := { Choices : list choice_res }.

Definition tag (name : string) : string :=
  DQ +:+ "json:" +:+ BSL +:+ DQ +:+ name +:+ BSL +:+ DQ +:+ DQ.

Definition messageType : string := "struct { Content string " +:+ tag "content" +:+ " }".
Definition choiceType : string := "struct { Message " +:+ messageType +:+ " " +:+ tag "message" +:+ " }".
Definition chatType : string := "struct { Choices []" +:+ choiceType +:+ " " +:+ tag "choices" +:+ " }".
Definition transcriptionType : string := "struct { Text string " +:+ tag "text" +:+ " }".

Definition lift {A B} (f : A -> B) (r : result A) : result B :=
  match r with Ok a => Ok (f a) | Err e => Err e end.

Definition decodeTranscription : json -> transcription_res -> result transcription_res :=
  decodeStruct "text"
    (fun v cur => lift Build_transcription_res (decodeString "text" v (Text cur)))
    transcriptionType "".

Definition decodeMessage : json -> message_res -> result message_res :=
  decodeStruct "content"
    (fun v cur => lift Build_message_res (decodeString "choices.message.content" v (Content cur)))
    messageType "choices.message".

Definition decodeChoice : json -> choice_res -> result choice_res :=
  decodeStruct "message"
    (fun v cur => lift Build_choice_res (decodeMessage v (Message cur)))
    choiceType "choices".

Definition zeroChoice : choice_res := {| Message := {| Content := "" |} |}.

Definition decodeChat : json -> chat_res -> result chat_res :=
  decodeStruct "choices"
    (fun v cur =>
       lift Build_chat_res
         (decodeSlice zeroChoice decodeChoice ("[]" +:+ choiceType) "choices" v (Choices cur)))
    chatType "".

Section Program.

Context {codec : JsonCodec}.

(** [json.NewDecoder(body).Decode(&res)] on a zero-valued [res]. *)
Definition Decode {T} (decode : json -> T -> result T) (zero : T) (body : list byte) : result T :=
  match json_scan body with
  | Ok v => decode v zero
  | Err e => Err e
  end.

(** The deferred closures of both clients: a failed close is only reported. *)
Definition closeLogged (close : Proc (option error)) (what : string) : Proc unit :=
  cerr <- close ;;
  match cerr with
  | Some e => Fprintf Stderr (what +:+ e +:+ LF)
  | None => ret tt
  end.

(** ** [transcribeAudio] (lines 112-179) *)

Definition transcribeAudio (apiKey audioPath : string) : Proc (result string) :=
  try fileInfo <- os_Stat audioPath onerr "failed to get file info: " ;;
  if (Size fileInfo >? MaxAudioFileSize config)%Z then
    ret (Err ("audio file too large: " +:+ FormatInt (Size fileInfo)
              +:+ " bytes (max: " +:+ FormatInt (MaxAudioFileSize config) +:+ " bytes)"))
  else
  try file <- os_Open audioPath onerr "failed to open audio file: " ;;
  defer (closeLogged (File_Close file) "Error closing audio file: ") (
    writer <- NewWriter ;;
    try part <- ret (CreateFormFile "file" (Base audioPath) writer)
      onerr "failed to create form file: " ;;
    try copied <- io_Copy part file onerr "failed to copy file content: " ;;
    try fielded <- ret (WriteField "model" "whisper-1" copied)
      onerr "failed to write model field: " ;;
    try closed <- ret (Writer_Close fielded) onerr "failed to close writer: " ;;
    try req <- ret (NewRequestWithContext "POST" (WhisperURL config) (wr_buf closed))
      onerr "failed to create request: " ;;
    let req := Header_Add "Authorization" ("Bearer " +:+ apiKey) req in
    let req := Header_Set "Content-Type" (FormDataContentType closed) req in
    try resp <- httpClient_Do req onerr "failed to send request: " ;;
    defer (closeLogged (Body_Close resp) "Error closing transcription response body: ") (
      if negb (StatusCode resp =? StatusOK)%Z then
        let body := limitRead (MaxResponseBodySize config) (Body resp) in
        ret (Err ("non-200 response: " +:+ FormatInt (StatusCode resp)
                  +:+ ", body: " +:+ string_of body))
      else
      try res <- ret (Decode decodeTranscription {| Text := "" |} (Body resp))
        onerr "failed to decode response: " ;;
      ret (Ok (Text res)))).

(** ** [diarizeTranscript] (lines 183-241) *)

Definition prompt (numSpeakers : Z) (transcript : string) : string :=
  "You are an expert in speaker diarization." +:+ LF +:+
  "Given the following transcript of a podcast and knowing there are "
  +:+ FormatInt numSpeakers +:+
  " speakers, please insert clear breaks and label each segment with the appropriate speaker (e.g., "
  +:+ DQ +:+ "Speaker 1:" +:+ DQ +:+ ", " +:+ DQ +:+ "Speaker 2:" +:+ DQ +:+ ", etc.)." +:+ LF +:+
  LF +:+
  "Transcript:" +:+ LF +:+
  transcript +:+ LF +:+
  LF +:+
  "Return the diarized transcript.".

(** The payload is a Go map; its keys are listed here as the source lists
    them, and [json.Marshal] decides the order it writes them in. *)
Definition payload (numSpeakers : Z) (transcript : string) : json :=
  JObject
    [("model", JString "gpt-4o");
     ("messages",
      JArray [JObject [("role", JString "user");
                       ("content", JString (prompt numSpeakers transcript))]]);
     ("temperature", JNumber "0.3")].

Definition diarizeTranscript (apiKey transcript : string) (numSpeakers : Z)
  : Proc (result string) :=
  try payloadBytes <- ret (json_Marshal (payload numSpeakers transcript))
    onerr "failed to marshal payload: " ;;
  try req <- ret (NewRequestWithContext "POST" (ChatCompletionsURL config) payloadBytes)
    onerr "failed to create chat completion request: " ;;
  let req := Header_Add "Authorization" ("Bearer " +:+ apiKey) req in
  let req := Header_Set "Content-Type" "application/json" req in
  try resp <- httpClient_Do req onerr "failed to send chat completion request: " ;;
  defer (closeLogged (Body_Close resp) "Error closing chat completion response body: ") (
    if negb (StatusCode resp =? StatusOK)%Z then
      let body := limitRead (MaxResponseBodySize config) (Body resp) in
      ret (Err ("non-200 response from chat completion: " +:+ FormatInt (StatusCode resp)
                +:+ ", body: " +:+ string_of body))
    else
    try res <- ret (Decode decodeChat {| Choices := [] |} (Body resp))
      onerr "failed to decode chat completion response: " ;;
    match Choices res with
    | [] => ret (Err "no choices returned from chat completion")
    | first :: _ => ret (Ok (Content (Message first)))
    end).

(** ** [main] (lines 45-109)

    [audioPath] and [numSpeakers] are the parsed flags [-audio] and
    [-speakers].  [main_transcript] is lines 63-91, [main_diarize] lines
    93-108. *)

Definition main_transcript (apiKey audioPath : string) : Proc string :=
  st <- os_Stat (TranscriptionFile config) ;;
  match st with
  | Ok _ =>
      r <- os_ReadFile (TranscriptionFile config) ;;
      match r with
      | Err err =>
          Fprintf Stderr ("Error reading " +:+ TranscriptionFile config +:+ ": " +:+ err +:+ LF) ;;
          os_Exit 1
      | Ok data =>
          let transcript := string_of data in
          Printf ("Loaded transcription from " +:+ TranscriptionFile config +:+ LF) ;;
          ret transcript
      end
  | Err _ =>
      r <- transcribeAudio apiKey audioPath ;;
      match r with
      | Err err =>
          Fprintf Stderr ("Error transcribing audio: " +:+ err +:+ LF) ;;
          os_Exit 1
      | Ok transcript =>
          werr <- os_WriteFile (TranscriptionFile config) (bytes_of transcript) 420 ;;
          match werr with
          | Some err =>
              Fprintf Stderr ("Error writing transcription to file: " +:+ err +:+ LF) ;;
              os_Exit 1
          | None =>
              Printf ("Transcription saved to " +:+ TranscriptionFile config +:+ LF) ;;
              ret transcript
          end
      end
  end.

Definition main_diarize (apiKey transcript : string) (numSpeakers : Z) : Proc unit :=
  r <- diarizeTranscript apiKey transcript numSpeakers ;;
  match r with
  | Err err =>
      Fprintf Stderr ("Error diarizing transcript: " +:+ err +:+ LF) ;;
      os_Exit 1
  | Ok diarizedTranscript =>
      werr <- os_WriteFile (DiarizedFile config)
                (bytes_of ("=== Diarized Transcript ===" +:+ LF +:+ diarizedTranscript +:+ LF))
                420 ;;
      match werr with
      | Some err =>
          Fprintf Stderr ("Error writing diarized transcript to file: " +:+ err +:+ LF) ;;
          os_Exit 1
      | None =>
          Printf ("Diarized transcript saved to " +:+ DiarizedFile config +:+ LF)
      end
  end.

Definition main (audioPath : string) (numSpeakers : Z) : Proc unit :=
  (if String.eqb audioPath "" then
     Fprintln Stderr "Please provide the path to the audio file using -audio" ;;
     os_Exit 1
   else ret tt) ;;
  apiKey <- os_Getenv "OPENAI_API_KEY" ;;
  (if String.eqb apiKey "" then
     Fprintln Stderr "Please set the OPENAI_API_KEY environment variable" ;;
     os_Exit 1
   else ret tt) ;;
  transcript <- main_transcript apiKey audioPath ;;
  main_diarize apiKey transcript numSpeakers.

(** The status the process ends with. *)
Definition exit_status {A} (o : outcome A) : Z :=
  match o with
  | Returned _ => 0
  | Exited code => code
  end.

End Program.

(** ** A reference codec

    A reader and a writer for JSON text, to run the program on concrete
    responses.  It follows [encoding/json] on well-formed UTF-8 text: the
    reader takes the first value of the stream and leaves the rest, the
    writer sorts object keys and escapes as [json.Marshal] does.  Bytes that
    are not valid UTF-8 are passed through unchanged. *)
Module RefJson.

Definition chr (c : ascii) (s : string) : bool :=
  match s with
  | String d EmptyString => Ascii.eqb c d
  | _ => false
  end.

Definition isWs (c : ascii) : bool := chr c " " || Ascii.eqb c "009"%char || Ascii.eqb c "010"%char || Ascii.eqb c "013"%char.

Definition isDigit (c : ascii) : bool :=
  let n := N_of_ascii c in ((48 <=? n) && (n <=? 57))%N.

Fixpoint skipWs (cs : list ascii) : list ascii :=
  match cs with
  | c :: r => if isWs c then skipWs r else cs
  | [] => []
  end.

Fixpoint digits (cs : list ascii) : list ascii * list ascii :=
  match cs with
  | c :: r => if isDigit c then let '(ds, rest) := digits r in (c :: ds, rest) else ([], cs)
  | [] => ([], [])
  end.

Definition hexVal (c : ascii) : option N :=
  let n := N_of_ascii c in
  if ((48 <=? n) && (n <=? 57))%N then Some (n - 48)%N
  else if ((97 <=? n) && (n <=? 102))%N then Some (n - 87)%N
  else if ((65 <=? n) && (n <=? 70))%N then Some (n - 55)%N
  else None.

Definition hex4 (a b c d : ascii) : option N :=
  match hexVal a, hexVal b, hexVal c, hexVal d with
  | Some x, Some y, Some z, Some t => Some (((x * 16 + y) * 16 + z) * 16 + t)%N
  | _, _, _, _ => None
  end.

(** UTF-8 of a code point. *)
Definition utf8 (cp : N) : list ascii :=
  let b (n : N) := ascii_of_N n in
  if (cp <? 128)%N then [b cp]
  else if (cp <? 2048)%N then [b (192 + cp / 64); b (128 + cp mod 64)]%N
  else if (cp <? 65536)%N then
    [b (224 + cp / 4096); b (128 + (cp / 64) mod 64); b (128 + cp mod 64)]%N
  else
    [b (240 + cp / 262144); b (128 + (cp / 4096) mod 64);
     b (128 + (cp / 64) mod 64); b (128 + cp mod 64)]%N.

Definition isHigh (cp : N) : bool := ((55296 <=? cp) && (cp <? 56320))%N.
Definition isLow (cp : N) : bool := ((56320 <=? cp) && (cp <? 57344))%N.

Definition simpleEscape (c : ascii) : option ascii :=
  if Ascii.eqb c "034"%char then Some "034"%char
  else if Ascii.eqb c "092"%char then Some "092"%char
  else if chr c "/" then Some "/"%char
  else if chr c "b" then Some "008"%char
  else if chr c "f" then Some "012"%char
  else if chr c "n" then Some "010"%char
  else if chr c "r" then Some "013"%char
  else if chr c "t" then Some "009"%char
  else None.

Definition syntaxError (what : string) : error := "invalid character " +:+ what.
Definition unexpectedEOF : error := "unexpected EOF".

(** The characters of a string literal after its opening quote. *)
Fixpoint parseString (cs : list ascii) (acc : list ascii) : result (string * list ascii) :=
  match cs with
  | [] => Err unexpectedEOF
  | c :: r =>
      if Ascii.eqb c "034"%char then Ok (string_of_list_ascii (rev acc), r)
      else if (N_of_ascii c <? 32)%N then Err (syntaxError "in string literal")
      else if Ascii.eqb c "092"%char then
        match r with
        | [] => Err unexpectedEOF
        | e :: r1 =>
            if chr e "u" then
              match r1 with
              | h1 :: h2 :: h3 :: h4 :: r2 =>
                  match hex4 h1 h2 h3 h4 with
                  | None => Err (syntaxError "in \u hexadecimal character escape")
                  | Some cp =>
                      if isHigh cp then
                        match r2 with
                        | b1 :: u1 :: l1 :: l2 :: l3 :: l4 :: r3 =>
                            match (if Ascii.eqb b1 "092"%char && chr u1 "u" then hex4 l1 l2 l3 l4 else None) with
                            | Some lo =>
                                if isLow lo
                                then parseString r3
                                       (rev (utf8 (65536 + (cp - 55296) * 1024 + (lo - 56320))%N) ++ acc)
                                else parseString r2 (rev (utf8 65533%N) ++ acc)
                            | None => parseString r2 (rev (utf8 65533%N) ++ acc)
                            end
                        | _ => parseString r2 (rev (utf8 65533%N) ++ acc)
                        end
                      else if isLow cp then parseString r2 (rev (utf8 65533%N) ++ acc)
                      else parseString r2 (rev (utf8 cp) ++ acc)
                  end
              | _ => Err unexpectedEOF
              end
            else
              match simpleEscape e with
              | Some x => parseString r1 (x :: acc)
              | None => Err (syntaxError "in string escape code")
              end
        end
      else parseString r (c :: acc)
  end.

(** A number literal: sign, integer part, fraction, exponent. *)
Definition parseNumber (cs : list ascii) : result (string * list ascii) :=
  let '(sign, r0) :=
    match cs with
    | c :: r => if chr c "-" then ([c], r) else ([], cs)
    | [] => ([], [])
    end in
  let '(int, r1) := digits r0 in
  let intOk :=
    match int with
    | [] => false
    | [_] => true
    | d :: _ => negb (chr d "0")
    end in
  if negb intOk then Err (syntaxError "in numeric literal")
  else
    let fracPart :=
      match r1 with
      | c :: r =>
          if chr c "." then
            let '(fr, r2) := digits r in
            match fr with [] => Err (syntaxError "after decimal point in numeric literal")
                        | _ => Ok (c :: fr, r2) end
          else Ok ([], r1)
      | [] => Ok ([], r1)
      end in
    match fracPart with
    | Err e => Err e
    | Ok (frac, r2) =>
        let expPart :=
          match r2 with
          | c :: r =>
              if chr c "e" || chr c "E" then
                let '(sg, r3) :=
                  match r with
                  | s :: r' => if chr s "+" || chr s "-" then ([s], r') else ([], r)
                  | [] => ([], [])
                  end in
                let '(ex, r4) := digits r3 in
                match ex with [] => Err (syntaxError "in exponent of numeric literal")
                            | _ => Ok (c :: sg ++ ex, r4) end
              else Ok ([], r2)
          | [] => Ok ([], r2)
          end in
        match expPart with
        | Err e => Err e
        | Ok (ex, r5) => Ok (string_of_list_ascii (sign ++ int ++ frac ++ ex), r5)
        end
    end.

Fixpoint isPrefix (p cs : list ascii) : option (list ascii) :=
  match p, cs with
  | [], _ => Some cs
  | a :: p', c :: cs' => if Ascii.eqb a c then isPrefix p' cs' else None
  | _ :: _, [] => None
  end.

Definition literal (word : string) (v : json) (cs : list ascii) : result (json * list ascii) :=
  match isPrefix (list_ascii_of_string word) cs with
  | Some r => Ok (v, r)
  | None => Err (syntaxError ("in literal " +:+ word))
  end.

Fixpoint parseValue (fuel : nat) (cs : list ascii) : result (json * list ascii) :=
  match fuel with
  | O => Err "exceeded max depth"
  | S fuel' =>
      match skipWs cs with
      | [] => Err unexpectedEOF
      | c :: r =>
          if chr c "{" then
            match skipWs r with
            | d :: r' => if chr d "}" then Ok (JObject [], r') else parseMembers fuel' (d :: r') []
            | [] => Err unexpectedEOF
            end
          else if chr c "[" then
            match skipWs r with
            | d :: r' => if chr d "]" then Ok (JArray [], r') else parseElems fuel' (d :: r') []
            | [] => Err unexpectedEOF
            end
          else if Ascii.eqb c "034"%char then
            match parseString r [] with
            | Ok (s, r') => Ok (JString s, r')
            | Err e => Err e
            end
          else if chr c "t" then literal "true" (JBool true) (c :: r)
          else if chr c "f" then literal "false" (JBool false) (c :: r)
          else if chr c "n" then literal "null" JNull (c :: r)
          else if chr c "-" || isDigit c then
            match parseNumber (c :: r) with
            | Ok (lit, r') => Ok (JNumber lit, r')
            | Err e => Err e
            end
          else Err (syntaxError "looking for beginning of value")
      end
  end
with parseElems (fuel : nat) (cs : list ascii) (acc : list json) : result (json * list ascii) :=
  match fuel with
  | O => Err "exceeded max depth"
  | S fuel' =>
      match parseValue fuel' cs with
      | Err e => Err e
      | Ok (v, r) =>
          match skipWs r with
          | [] => Err unexpectedEOF
          | d :: r' =>
              if chr d "," then parseElems fuel' r' (v :: acc)
              else if chr d "]" then Ok (JArray (rev (v :: acc)), r')
              else Err (syntaxError "after array element")
          end
      end
  end
with parseMembers (fuel : nat) (cs : list ascii) (acc : list (string * json))
  : result (json * list ascii) :=
  match fuel with
  | O => Err "exceeded max depth"
  | S fuel' =>
      match skipWs cs with
      | [] => Err unexpectedEOF
      | q :: r =>
          if negb (Ascii.eqb q "034"%char) then Err (syntaxError "looking for beginning of object key string")
          else
            match parseString r [] with
            | Err e => Err e
            | Ok (k, r1) =>
                match skipWs r1 with
                | [] => Err unexpectedEOF
                | col :: r2 =>
                    if negb (chr col ":") then Err (syntaxError "after object key")
                    else
                      match parseValue fuel' r2 with
                      | Err e => Err e
                      | Ok (v, r3) =>
                          match skipWs r3 with
                          | [] => Err unexpectedEOF
                          | d :: r4 =>
                              if chr d "," then parseMembers fuel' r4 ((k, v) :: acc)
                              else if chr d "}" then Ok (JObject (rev ((k, v) :: acc)), r4)
                              else Err (syntaxError "after object key:value pair")
                          end
                      end
                end
            end
      end
  end.

Definition scan (body : list byte) : result json :=
  let cs := list_ascii_of_string (string_of body) in
  match skipWs cs with
  | [] => Err "EOF"
  | _ =>
      match parseValue (2 * length cs + 2) cs with
      | Ok (v, _) => Ok v
      | Err e => Err e
      end
  end.

(** The writer. *)
Definition hexDigit (n : N) : ascii :=
  nth (N.to_nat n) (list_ascii_of_string "0123456789abcdef") "0"%char.

Definition u00 (n : N) : list ascii :=
  list_ascii_of_string (BSL +:+ "u00") ++ [hexDigit (n / 16); hexDigit (n mod 16)].

Definition shortEscape (c : ascii) : option string :=
  if Ascii.eqb c "034"%char then Some DQ
  else if Ascii.eqb c "092"%char then Some BSL
  else if Ascii.eqb c "008"%char then Some "b"
  else if Ascii.eqb c "012"%char then Some "f"
  else if Ascii.eqb c "010"%char then Some "n"
  else if Ascii.eqb c "013"%char then Some "r"
  else if Ascii.eqb c "009"%char then Some "t"
  else None.

Definition isLineSep (c c2 c3 : ascii) : bool :=
  Ascii.eqb c "226"%char && Ascii.eqb c2 "128"%char && (Ascii.eqb c3 "168"%char || Ascii.eqb c3 "169"%char).

Fixpoint escapeString (cs : list ascii) : list ascii :=
  match cs with
  | [] => []
  | c :: r =>
      match shortEscape c with
      | Some e => list_ascii_of_string (BSL +:+ e) ++ escapeString r
      | None =>
          if (N_of_ascii c <? 32)%N || chr c "<" || chr c ">" || chr c "&"
          then u00 (N_of_ascii c) ++ escapeString r
          else
            match r with
            | c2 :: c3 :: r3 =>
                if isLineSep c c2 c3
                then list_ascii_of_string (BSL +:+ "u202") ++ [hexDigit (N_of_ascii c3 - 160)]
                       ++ escapeString r3
                else c :: escapeString r
            | _ => c :: escapeString r
            end
      end
  end.

Definition quote (s : string) : list ascii :=
  list_ascii_of_string DQ ++ escapeString (list_ascii_of_string s) ++ list_ascii_of_string DQ.

Fixpoint insertMember (m : string * list ascii) (ms : list (string * list ascii)) :=
  match ms with
  | [] => [m]
  | x :: r => if String.leb m.1 x.1 then m :: ms else x :: insertMember m r
  end.

Fixpoint joinComma (parts : list (list ascii)) : list ascii :=
  match parts with
  | [] => []
  | [p] => p
  | p :: rest => p ++ list_ascii_of_string "," ++ joinComma rest
  end.

Fixpoint encode (v : json) : list ascii :=
  match v with
  | JNull => list_ascii_of_string "null"
  | JBool b => list_ascii_of_string (if b then "true" else "false")
  | JNumber lit => list_ascii_of_string lit
  | JString s => quote s
  | JArray items =>
      list_ascii_of_string "[" ++ joinComma (map encode items) ++ list_ascii_of_string "]"
  | JObject members =>
      let encoded :=
        (fix go (ms : list (string * json)) :=
           match ms with
           | [] => []
           | (k, x) :: r => (k, encode x) :: go r
           end) members in
      list_ascii_of_string "{"
        ++ joinComma (map (fun kv : string * list ascii =>
                             (quote kv.1 ++ list_ascii_of_string ":" ++ kv.2)%list)
                        (foldr insertMember [] encoded))
        ++ list_ascii_of_string "}"
  end.

Definition marshal (v : json) : result (list byte) :=
  Ok (bytes_of (string_of_list_ascii (encode v))).

End RefJson.

#[global] Instance ref_codec : JsonCodec :=
  {| json_scan := RefJson.scan; json_Marshal := RefJson.marshal |}.

(** ** Observations on a trace *)

Definition isTranscriptionRequest (e : event) : bool :=
  match e with
  | EvDo req => String.eqb (URL req) (WhisperURL config)
  | _ => false
  end.

Definition isRequest (e : event) : bool :=
  match e with EvDo _ => true | _ => false end.

Definition isOpen (e : event) : bool :=
  match e with EvOpen _ | EvCopy _ => true | _ => false end.

Definition isWrite (e : event) : bool :=
  match e with EvWriteFile _ _ => true | _ => false end.

(** The requests a trace sent to [url]. *)
Definition requestsTo (url : string) (tr : list event) : list Request :=
  flat_map (fun e => match e with
                     | EvDo req => if String.eqb (URL req) url then [req] else []
                     | _ => []
                     end) tr.

(** What a trace printed on the error stream, and what a file holds. *)
Definition stderrOf (tr : list event) : list string :=
  flat_map (fun e => match e with EvPrint Stderr text => [text] | _ => [] end) tr.

Definition contentOf (w : World) (name : string) : option string :=
  (fun nd => string_of (n_data nd)) <$> w_fs w !! name.

Definition isStat (e : event) : bool :=
  match e with EvStat _ => true | _ => false end.

(** Events that only a call of [transcribeAudio] produces: it starts with a
    [Stat], opens and copies the file, and sends to the transcription
    endpoint. *)
Definition isTranscriptionEvent (e : event) : bool :=
  isStat e || isOpen e || isTranscriptionRequest e.

(** What [os.WriteFile] leaves behind when it creates [data] with mode 0644. *)
Definition created (data : list byte) : node :=
  {| n_kind := Regular; n_size := Z.of_nat (length data); n_data := data;
     n_read := true; n_write := true |}.

Definition loadedMessage : string :=
  "Loaded transcription from " +:+ TranscriptionFile config +:+ LF.

Definition savedMessage : string :=
  "Transcription saved to " +:+ TranscriptionFile config +:+ LF.

(** The content [main] gives the output file. *)
Definition diarizedContent (diarizedTranscript : string) : list byte :=
  bytes_of ("=== Diarized Transcript ===" +:+ LF +:+ diarizedTranscript +:+ LF).

Definition diarizedMessage : string :=
  "Diarized transcript saved to " +:+ DiarizedFile config +:+ LF.

(** ** The two clients seen from outside

    The request each client sends and its result as a function of the
    response; the theorems below show that the clients are these. *)

Section Views.

Context {codec : JsonCodec}.

Definition multipartBody (boundary filename : string) (data : list byte) : list byte :=
  wr_buf
    (finish
       (formField "model" "whisper-1"
          (wr_write data
             (formFile "file" filename
                {| wr_buf := []; wr_boundary := boundary; wr_started := false |})))).

Definition transcriptionRequest (apiKey audioPath boundary : string) (data : list byte)
  : Request :=
  {| Method := "POST";
     URL := WhisperURL config;
     Header := [("Authorization", "Bearer " +:+ apiKey);
                ("Content-Type",
                 "multipart/form-data; boundary=" +:+
                 (if existsb tspecial (list_ascii_of_string boundary)
                  then DQ +:+ boundary +:+ DQ else boundary))];
     ReqBody := multipartBody boundary (Base audioPath) data |}.

(** Lines 167-178. *)
Definition transcriptionResult (resp : Response) : result string :=
  if (StatusCode resp =? StatusOK)%Z then
    match Decode decodeTranscription {| Text := "" |} (Body resp) with
    | Ok res => Ok (Text res)
    | Err e => Err (wrap "failed to decode response: " e)
    end
  else
    Err ("non-200 response: " +:+ FormatInt (StatusCode resp) +:+ ", body: "
         +:+ string_of (limitRead (MaxResponseBodySize config) (Body resp))).

Definition diarizationRequest (apiKey : string) (payloadBytes : list byte) : Request :=
  {| Method := "POST";
     URL := ChatCompletionsURL config;
     Header := [("Authorization", "Bearer " +:+ apiKey);
                ("Content-Type", "application/json")];
     ReqBody := payloadBytes |}.

(** Lines 221-240. *)
Definition diarizationResult (resp : Response) : result string :=
  if (StatusCode resp =? StatusOK)%Z then
    match Decode decodeChat {| Choices := [] |} (Body resp) with
    | Ok res =>
        match Choices res with
        | [] => Err "no choices returned from chat completion"
        | first :: _ => Ok (Content (Message first))
        end
    | Err e => Err (wrap "failed to decode chat completion response: " e)
    end
  else
    Err ("non-200 response from chat completion: " +:+ FormatInt (StatusCode resp)
         +:+ ", body: " +:+ string_of (limitRead (MaxResponseBodySize config) (Body resp))).

(** The members of an object that the field [Text] takes. *)
Definition isTextMember (m : string * json) : bool := fieldMatch "text" m.1.

(** Values a Go string field takes: a JSON string, or [null], which leaves
    the field as it is. *)
Definition stringLike (v : json) : bool :=
  match v with
  | JString _ | JNull => true
  | _ => false
  end.

Definition setText (v : json) (cur : transcription_res) : result transcription_res :=
  lift Build_transcription_res (decodeString "text" v (Text cur)).

End Views.

(** The node [os.WriteFile] leaves at a path that held [old]. *)
Definition overwritten (old : option node) (data : list byte) : node :=
  {| n_kind := Regular; n_size := Z.of_nat (length data); n_data := data;
     n_read := match old with Some nd => n_read nd | None => true end;
     n_write := true |}.

Definition writable (w : World) (name : string) : bool :=
  match w_fs w !! name with
  | Some nd => negb (is_dir nd) && n_write nd
  | None => w_creat w
  end.

(** ** Concrete worlds

    The audio file, the environment and two mocked endpoints, to run the
    program with the reference codec. *)
Module Scenario.

Definition quoted (s : string) : string := DQ +:+ s +:+ DQ.

(** A service answers the transcription endpoint with [whisper] and any
    other URL with [chat]. *)
Definition respond (whisper chat : result Response) : Request -> result Response :=
  fun req => if String.eqb (URL req) (WhisperURL config) then whisper else chat.

Definition status (code : Z) (body : string) : result Response :=
  Ok {| StatusCode := code; Body := bytes_of body |}.

Definition transcriptionJSON (text : string) : string :=
  "{" +:+ quoted "text" +:+ ":" +:+ quoted text +:+ "}".

Definition chatJSON (content : string) : string :=
  "{" +:+ quoted "choices" +:+ ":[{" +:+ quoted "message" +:+ ":{"
  +:+ quoted "content" +:+ ":" +:+ quoted content +:+ "}}]}".

Definition audio : node := created (bytes_of "RIFF").

Definition world (fs : gmap string node) (upstream : Request -> result Response) : World :=
  {| w_fs := fs;
     w_creat := true;
     w_env := {[ "OPENAI_API_KEY" := "sk-test" ]};
     w_boundary := "f00dfeed";
     w_upstream := upstream;
     w_trace := [] |}.

Definition refused : result Response := Err "connection refused".

(** No cache file; both endpoints answer. *)
Definition fresh : World :=
  world {[ "podcast.mp3" := audio ]}
    (respond (status 200 (transcriptionJSON "hello world"))
             (status 200 (chatJSON "Speaker 1: hello world"))).

(** A cache file is present; the transcription endpoint is unreachable. *)
Definition cached : World :=
  world {[ "podcast.mp3" := audio; "transcription.txt" := created (bytes_of "cached text") ]}
    (respond refused (status 200 (chatJSON "Speaker 1: cached text"))).

(** The audio file is 30 MiB long. *)
Definition bigAudio : node :=
  {| n_kind := Regular; n_size := 30 * 1024 * 1024; n_data := [];
     n_read := true; n_write := true |}.

Definition large : World :=
  world {[ "podcast.mp3" := bigAudio ]} (respond refused refused).

(** The chat endpoint is rate limited. *)
Definition limited : World :=
  world {[ "podcast.mp3" := audio ]}
    (respond (status 200 (transcriptionJSON "hello world"))
             (status 429 "rate limit exceeded")).

(** Every request is answered 503. *)
Definition unavailable : World :=
  world {[ "podcast.mp3" := audio ]} (fun _ => status 503 "upstream down").

(** Every request is answered 201, with a body that would decode. *)
Definition accepted : World :=
  world {[ "podcast.mp3" := audio ]} (fun _ => status 201 (transcriptionJSON "hello world")).

(** The payload the reference writer produces. *)
Definition payloadBytes (numSpeakers : Z) (transcript : string) : list byte :=
  bytes_of (string_of_list_ascii (RefJson.encode (payload numSpeakers transcript))).

(** The transcription carries more members than [text]. *)
Definition verbose : World :=
  world {[ "podcast.mp3" := audio ]}
    (respond (status 200
                ("{" +:+ quoted "task" +:+ ":" +:+ quoted "transcribe" +:+ ","
                 +:+ quoted "text" +:+ ":" +:+ quoted "hello world" +:+ ","
                 +:+ quoted "duration" +:+ ":1.5}"))
             refused).

(** The transcription has a number where the text should be. *)
Definition numeric : World :=
  world {[ "podcast.mp3" := audio ]}
    (respond (status 200 ("{" +:+ quoted "text" +:+ ":42}")) refused).

(** The chat endpoint answers with no choice, or with two. *)
Definition speechless : World :=
  world {[ "podcast.mp3" := audio ]}
    (respond refused (status 200 ("{" +:+ quoted "choices" +:+ ":[]}"))).

Definition twofold : World :=
  world {[ "podcast.mp3" := audio ]}
    (respond refused
       (status 200
          ("{" +:+ quoted "id" +:+ ":" +:+ quoted "chatcmpl-1" +:+ ","
           +:+ quoted "choices" +:+ ":[{" +:+ quoted "index" +:+ ":0,"
           +:+ quoted "message" +:+ ":{" +:+ quoted "role" +:+ ":" +:+ quoted "assistant" +:+ ","
           +:+ quoted "content" +:+ ":" +:+ quoted "Speaker 1: hi" +:+ "}},{"
           +:+ quoted "message" +:+ ":{" +:+ quoted "content" +:+ ":" +:+ quoted "other" +:+ "}}]}"))).


End Scenario.

(** * Properties *)

(** ** Worlds that differ by logged events *)

Lemma w_fs_logs evs w : w_fs (logs evs w) = w_fs w.
Proof. reflexivity. Qed.

Lemma w_trace_logs evs w : w_trace (logs evs w) = w_trace w ++ evs.
Proof. reflexivity. Qed.

Lemma logs_logs a b w : logs b (logs a w) = logs (a ++ b) w.
Proof. unfold logs; simpl. by rewrite app_assoc. Qed.

Lemma log_logs e w : log e w = logs [e] w.
Proof. reflexivity. Qed.

Lemma logs_nil w : logs [] w = w.
Proof. destruct w; unfold logs; simpl. by rewrite app_nil_r. Qed.

Lemma requestsTo_app url a b : requestsTo url (a ++ b) = requestsTo url a ++ requestsTo url b.
Proof. unfold requestsTo. apply flat_map_app. Qed.

(** ** [FormatInt] prints decimal numerals *)

Lemma digitValue_digit d : (d < 10)%N -> digitValue (digit d) = Some d.
Proof.
  intros Hd. unfold digitValue, digit.
  rewrite N_ascii_embedding by lia.
  destruct (N.leb_spec 48 (48 + d)); [|lia].
  destruct (N.leb_spec (48 + d) 57); [|lia].
  cbn [andb]. f_equal. lia.
Qed.

Lemma readDigits_formatBits fuel u acc :
  (u < 2 ^ N.of_nat fuel)%N ->
  readDigits (formatBits fuel u acc) 0 = readDigits acc u.
Proof.
  revert u acc.
  induction fuel as [|fuel IH]; intros u acc Hfuel.
  - cbn in Hfuel. assert (u = 0%N) as -> by lia. reflexivity.
  - cbn [formatBits]. destruct (N.ltb_spec u 10) as [Hlt|Hge].
    + cbn [readDigits]. rewrite digitValue_digit by (apply N.mod_lt; lia).
      rewrite N.mod_small by lia. reflexivity.
    + rewrite IH.
      * cbn [readDigits]. rewrite digitValue_digit by (apply N.mod_lt; lia).
        f_equal. pose proof (N.div_mod u 10). lia.
      * rewrite Nat2N.inj_succ, N.pow_succ_r' in Hfuel.
        apply N.Div0.div_lt_upper_bound. lia.
Qed.

Lemma formatBits_head fuel u acc :
  exists d rest, (d < 10)%N /\ formatBits (S fuel) u acc = String (digit d) rest.
Proof.
  revert u acc. induction fuel as [|fuel IH]; intros u acc.
  - exists (u mod 10)%N. cbn [formatBits].
    destruct (u <? 10)%N; eexists; (split; [apply N.mod_lt; lia | reflexivity]).
  - cbn [formatBits]. destruct (u <? 10)%N.
    + exists (u mod 10)%N. eexists. split; [apply N.mod_lt; lia | reflexivity].
    + apply (IH (u / 10)%N).
Qed.

Lemma digit_not_minus d : (d < 10)%N -> Ascii.eqb (digit d) "-" = false.
Proof.
  intros Hd. apply Ascii.eqb_neq. intros Heq.
  apply (f_equal N_of_ascii) in Heq. unfold digit in Heq.
  rewrite N_ascii_embedding in Heq by lia. cbn in Heq. lia.
Qed.

Lemma enough_fuel u : (u < 2 ^ N.of_nat (S (N.to_nat (N.log2 u))))%N.
Proof.
  rewrite Nat2N.inj_succ, N2Nat.id.
  destruct (N.eq_dec u 0%N) as [->|Hu]; [reflexivity|].
  apply N.log2_spec. lia.
Qed.

(** What [FormatInt] prints reads back as the number. *)
Lemma ParseInt_FormatInt i : ParseInt (FormatInt i) = Some i.
Proof.
  unfold FormatInt.
  pose proof (readDigits_formatBits _ _ EmptyString (enough_fuel (Z.to_N (Z.abs i)))) as Hread.
  destruct (formatBits_head (N.to_nat (N.log2 (Z.to_N (Z.abs i)))) (Z.to_N (Z.abs i)) EmptyString)
    as (d & rest & Hd & Hhead).
  rewrite Hhead in *.
  destruct (Z.ltb_spec i 0) as [Hneg|Hpos].
  - change ("-" +:+ String (digit d) rest) with (String "-" (String (digit d) rest)).
    unfold ParseInt. rewrite Ascii.eqb_refl, Hread.
    cbn [readDigits option_map]. f_equal. lia.
  - change ("" +:+ String (digit d) rest) with (String (digit d) rest).
    unfold ParseInt. rewrite (digit_not_minus d Hd), Hread.
    cbn [readDigits option_map]. f_equal. lia.
Qed.

(** ** [limitRead] *)



Lemma limitRead_all n body : Z.of_nat (length body) <= n -> limitRead n body = body.
Proof.
  revert n. induction body as [|b body IH]; intros n Hn; simpl in *; [done|].
  destruct (Z.leb_spec n 0) as [Hle|Hgt]; [lia|].
  f_equal. apply IH. lia.
Qed.

Lemma string_of_bytes_of s : string_of (bytes_of s) = s.
Proof. apply string_of_list_byte_of_string. Qed.



(** ** The two clients, as one request and a function of the response *)

Lemma set_fs_logs fs evs w : logs evs (set_fs fs w) = set_fs fs (logs evs w).
Proof. reflexivity. Qed.

(** Symbolic execution: unfold the operations, then compute on the world. *)
Ltac unfold_ops :=
  unfold os_Stat, os_Open, os_ReadFile, os_WriteFile, os_Getenv, io_Copy, File_Close,
    Body_Close, NewWriter, httpClient_Do, CreateFormFile, WriteField, Writer_Close,
    NewRequestWithContext;
  unfold orReturn, defer, closeLogged, Printf, Fprintln, Fprintf, os_Exit;
  unfold bind, ret, emit, log.

Ltac reduce :=
  cbn beta iota zeta;
  cbn [w_fs w_creat w_env w_boundary w_upstream w_trace logs set_fs Size
       f_node f_name negb andb orb fst snd app];
  rewrite ?logs_logs.

Ltac same_world :=
  change (Z.testbit 420 8) with true; change (Z.testbit 420 7) with true;
  repeat (progress (rewrite ?logs_logs; cbn [app]));
  rewrite <- ?app_assoc; cbn [app]; try done.

Section Clients.

Context {codec : JsonCodec}.

Lemma transcribeAudio_absent apiKey audioPath w :
  w_fs w !! audioPath = None ->
  transcribeAudio apiKey audioPath w =
    (Returned (Err (wrap "failed to get file info: " (ENOENT "stat" audioPath))),
     logs [EvStat audioPath] w).
Proof.
  intros Hfs. unfold transcribeAudio. unfold_ops. reduce. by rewrite Hfs.
Qed.

Lemma transcribeAudio_large apiKey audioPath w n :
  w_fs w !! audioPath = Some n ->
  MaxAudioFileSize config < n_size n ->
  transcribeAudio apiKey audioPath w =
    (Returned (Err ("audio file too large: " +:+ FormatInt (n_size n)
                    +:+ " bytes (max: " +:+ FormatInt (MaxAudioFileSize config) +:+ " bytes)")),
     logs [EvStat audioPath] w).
Proof.
  intros Hfs Hsize. unfold transcribeAudio. unfold_ops. reduce. rewrite Hfs. reduce.
  destruct (Z.gtb_spec (n_size n) (MaxAudioFileSize config)) as [_|Hle]; [done | lia].
Qed.

Lemma transcribeAudio_sends apiKey audioPath w n :
  w_fs w !! audioPath = Some n ->
  n_size n <= MaxAudioFileSize config ->
  n_read n = true ->
  n_kind n = Regular ->
  let req := transcriptionRequest apiKey audioPath (w_boundary w) (n_data n) in
  transcribeAudio apiKey audioPath w =
    match w_upstream w req with
    | Ok resp =>
        (Returned (transcriptionResult resp),
         logs [EvStat audioPath; EvOpen audioPath; EvCopy audioPath; EvDo req;
               EvCloseBody; EvClose audioPath] w)
    | Err e =>
        (Returned (Err (wrap "failed to send request: " e)),
         logs [EvStat audioPath; EvOpen audioPath; EvCopy audioPath; EvDo req;
               EvClose audioPath] w)
    end.
Proof.
  intros Hfs Hsize Hread Hkind req.
  unfold transcribeAudio. unfold_ops. reduce. rewrite Hfs. reduce.
  destruct (Z.gtb_spec (n_size n) (MaxAudioFileSize config)) as [Hgt|_]; [lia|].
  reduce. rewrite Hfs. reduce. rewrite Hread. reduce. unfold is_dir. rewrite Hkind. reduce.
  change (validMethod "POST") with true. reduce.
  match goal with |- context [w_upstream w ?r] => change r with req end.
  destruct (w_upstream w req) as [resp|e]; reduce; [|done].
  unfold transcriptionResult.
  destruct (StatusCode resp =? StatusOK)%Z; reduce; [|done].
  destruct (Decode decodeTranscription _ _); reduce; done.
Qed.

(** Whatever happens, [transcribeAudio] returns, and only adds events. *)
Lemma transcribeAudio_logs apiKey audioPath w :
  exists r evs, transcribeAudio apiKey audioPath w = (Returned r, logs evs w).
Proof.
  destruct (w_fs w !! audioPath) as [n|] eqn:Hfs;
    [|rewrite transcribeAudio_absent by done; eauto].
  destruct (Z.le_gt_cases (n_size n) (MaxAudioFileSize config)) as [Hle|Hgt];
    [|rewrite (transcribeAudio_large _ _ _ n) by (done || lia); eauto].
  destruct (n_read n) eqn:Hread; [destruct (n_kind n) eqn:Hkind|].
  - rewrite (transcribeAudio_sends _ _ _ n) by done.
    destruct (w_upstream w _); eauto.
  - unfold transcribeAudio. unfold_ops. reduce. rewrite Hfs. reduce.
    destruct (Z.gtb_spec (n_size n) (MaxAudioFileSize config)) as [?|_]; [lia|].
    reduce. rewrite Hfs. reduce. rewrite Hread. reduce. unfold is_dir. rewrite Hkind. reduce.
    eauto.
  - unfold transcribeAudio. unfold_ops. reduce. rewrite Hfs. reduce.
    destruct (Z.gtb_spec (n_size n) (MaxAudioFileSize config)) as [?|_]; [lia|].
    reduce. rewrite Hfs. reduce. rewrite Hread. reduce. eauto.
Qed.

Lemma diarizeTranscript_run apiKey transcript numSpeakers w :
  diarizeTranscript apiKey transcript numSpeakers w =
    match json_Marshal (payload numSpeakers transcript) with
    | Err e => (Returned (Err (wrap "failed to marshal payload: " e)), w)
    | Ok payloadBytes =>
        let req := diarizationRequest apiKey payloadBytes in
        match w_upstream w req with
        | Ok resp => (Returned (diarizationResult resp), logs [EvDo req; EvCloseBody] w)
        | Err e =>
            (Returned (Err (wrap "failed to send chat completion request: " e)),
             logs [EvDo req] w)
        end
    end.
Proof.
  unfold diarizeTranscript. unfold_ops. reduce.
  destruct (json_Marshal _) as [payloadBytes|e]; reduce; [|done].
  change (validMethod "POST") with true. reduce.
  match goal with |- context [w_upstream w ?r] =>
    change r with (diarizationRequest apiKey payloadBytes) end.
  destruct (w_upstream w _) as [resp|e]; reduce; [|done].
  unfold diarizationResult.
  destruct (StatusCode resp =? StatusOK)%Z; reduce; [|done].
  destruct (Decode decodeChat _ _) as [res|e]; reduce; [|done].
  destruct (Choices res); reduce; done.
Qed.

Lemma diarizeTranscript_logs apiKey transcript numSpeakers w :
  exists r evs,
    diarizeTranscript apiKey transcript numSpeakers w = (Returned r, logs evs w)
    /\ forallb (fun e => negb (isTranscriptionEvent e) && negb (isWrite e)) evs = true.
Proof.
  rewrite diarizeTranscript_run.
  destruct (json_Marshal _) as [payloadBytes|e].
  - cbn zeta. destruct (w_upstream w _); do 2 eexists; (split; [reflexivity|done]).
  - exists (Err (wrap "failed to marshal payload: " e)), []. by rewrite logs_nil.
Qed.

End Clients.

(** ** The stages of [main] *)

Section Main.

Context {codec : JsonCodec}.

Lemma main_valid audioPath numSpeakers w apiKey :
  audioPath <> "" ->
  w_env w !! "OPENAI_API_KEY" = Some apiKey ->
  apiKey <> "" ->
  main audioPath numSpeakers w =
    (transcript <- main_transcript apiKey audioPath ;;
     main_diarize apiKey transcript numSpeakers) w.
Proof.
  intros Hpath Henv Hkey. unfold main.
  apply String.eqb_neq in Hpath. apply String.eqb_neq in Hkey.
  rewrite Hpath. unfold os_Getenv, bind, ret.
  rewrite Henv. change (default "" (Some apiKey)) with apiKey. rewrite Hkey. reflexivity.
Qed.

(** The cache file is there: it is read, and [transcribeAudio] is not called. *)
Lemma main_transcript_present apiKey audioPath w nd :
  w_fs w !! TranscriptionFile config = Some nd ->
  main_transcript apiKey audioPath w =
    if n_read nd && negb (is_dir nd)
    then (Returned (string_of (n_data nd)),
          logs [EvStat (TranscriptionFile config); EvReadFile (TranscriptionFile config);
                EvPrint Stdout loadedMessage] w)
    else (Exited 1,
          logs [EvStat (TranscriptionFile config); EvReadFile (TranscriptionFile config);
                EvPrint Stderr
                  ("Error reading " +:+ TranscriptionFile config +:+ ": " +:+
                   (if n_read nd then EISDIR "read" (TranscriptionFile config)
                    else EACCES "open" (TranscriptionFile config)) +:+ LF)] w).
Proof.
  intros Hfs. unfold main_transcript. unfold_ops. reduce. rewrite Hfs. reduce.
  rewrite Hfs. destruct (n_read nd); reduce; [|done].
  destruct (is_dir nd); reduce; done.
Qed.

(** The cache file is missing: [transcribeAudio] runs and its text is saved. *)
Lemma main_transcript_fresh apiKey audioPath w r w1 :
  w_fs w !! TranscriptionFile config = None ->
  transcribeAudio apiKey audioPath (logs [EvStat (TranscriptionFile config)] w) = (Returned r, w1) ->
  main_transcript apiKey audioPath w =
    match r with
    | Err err =>
        (Exited 1, logs [EvPrint Stderr ("Error transcribing audio: " +:+ err +:+ LF)] w1)
    | Ok transcript =>
        if w_creat w
        then (Returned transcript,
              set_fs (<[TranscriptionFile config := created (bytes_of transcript)]> (w_fs w))
                (logs [EvWriteFile (TranscriptionFile config) (bytes_of transcript);
                       EvPrint Stdout savedMessage] w1))
        else (Exited 1,
              logs [EvWriteFile (TranscriptionFile config) (bytes_of transcript);
                    EvPrint Stderr ("Error writing transcription to file: " +:+
                                    EACCES "open" (TranscriptionFile config) +:+ LF)] w1)
    end.
Proof.
  intros Hfs Hrun.
  destruct (transcribeAudio_logs apiKey audioPath (logs [EvStat (TranscriptionFile config)] w))
    as (r' & evs & Hlogs).
  rewrite Hlogs in Hrun. injection Hrun as -> <-.
  unfold main_transcript. unfold_ops. reduce. rewrite Hfs. reduce.
  change (logs [EvStat "transcription.txt"] w) with (logs [EvStat (TranscriptionFile config)] w).
  rewrite Hlogs. reduce. destruct r as [transcript|err]; reduce; [|done].
  rewrite Hfs. destruct (w_creat w); reduce; [rewrite set_fs_logs|]; same_world.
Qed.

Lemma main_diarize_failed apiKey transcript numSpeakers w e w2 :
  diarizeTranscript apiKey transcript numSpeakers w = (Returned (Err e), w2) ->
  main_diarize apiKey transcript numSpeakers w =
    (Exited 1, logs [EvPrint Stderr ("Error diarizing transcript: " +:+ e +:+ LF)] w2).
Proof.
  intros Hrun. unfold main_diarize. unfold bind at 1. rewrite Hrun.
  unfold_ops. reduce. done.
Qed.

Lemma main_diarize_succeeded apiKey transcript numSpeakers w d w2 :
  diarizeTranscript apiKey transcript numSpeakers w = (Returned (Ok d), w2) ->
  writable w2 (DiarizedFile config) = true ->
  main_diarize apiKey transcript numSpeakers w =
    (Returned tt,
     set_fs (<[DiarizedFile config :=
                 overwritten (w_fs w2 !! DiarizedFile config) (diarizedContent d)]> (w_fs w2))
       (logs [EvWriteFile (DiarizedFile config) (diarizedContent d);
              EvPrint Stdout diarizedMessage] w2)).
Proof.
  intros Hrun Hwr. unfold main_diarize. unfold bind at 1. rewrite Hrun.
  unfold writable in Hwr. unfold_ops. reduce.
  destruct (w_fs w2 !! DiarizedFile config) as [nd|] eqn:Hfs.
  - apply andb_true_iff in Hwr as [Hdir Hw]. apply negb_true_iff in Hdir.
    rewrite Hdir, Hw. reduce. rewrite set_fs_logs. same_world.
  - rewrite Hwr. reduce. rewrite set_fs_logs. same_world.
Qed.

Lemma main_diarize_unwritable apiKey transcript numSpeakers w d w2 :
  diarizeTranscript apiKey transcript numSpeakers w = (Returned (Ok d), w2) ->
  writable w2 (DiarizedFile config) = false ->
  exists evs,
    main_diarize apiKey transcript numSpeakers w = (Exited 1, logs evs w2)
    /\ forallb (fun e => negb (isTranscriptionEvent e)) evs = true.
Proof.
  intros Hrun Hwr. unfold main_diarize. unfold bind at 1. rewrite Hrun.
  unfold writable in Hwr. unfold_ops. reduce.
  destruct (w_fs w2 !! DiarizedFile config) as [nd|] eqn:Hfs.
  - destruct (is_dir nd); reduce; [eauto|].
    cbn [negb andb] in Hwr. rewrite Hwr. reduce. eauto.
  - rewrite Hwr. reduce. eauto.
Qed.

End Main.

Section Runs.

Context {codec : JsonCodec}.

Lemma set_fs_same w : set_fs (w_fs w) w = w.
Proof. by destruct w. Qed.

Lemma forallb_weaken {A} (p q : A -> bool) l :
  (forall x, p x = true -> q x = true) -> forallb p l = true -> forallb q l = true.
Proof.
  intros Hpq. induction l as [|x l IH]; simpl; [done|].
  intros [Hx Hl]%andb_true_iff. by rewrite (Hpq x Hx), IH.
Qed.



(** When the first stage returns, the cache file holds the transcript and no
    other file has changed. *)
Lemma main_transcript_returned apiKey audioPath w transcript w1 :
  main_transcript apiKey audioPath w = (Returned transcript, w1) ->
  (exists nd, w_fs w1 !! TranscriptionFile config = Some nd
              /\ n_kind nd = Regular
              /\ string_of (n_data nd) = transcript)
  /\ (forall name, name <> TranscriptionFile config -> w_fs w1 !! name = w_fs w !! name).
Proof.
  intros Hrun.
  destruct (w_fs w !! TranscriptionFile config) as [nd|] eqn:Hfs.
  - rewrite (main_transcript_present _ _ _ nd Hfs) in Hrun.
    destruct (n_read nd) eqn:Hread; [|discriminate].
    destruct (is_dir nd) eqn:Hdir; [discriminate|].
    cbn [andb negb] in Hrun. injection Hrun as <- <-. split; [|done].
    exists nd. rewrite w_fs_logs. split; [done|]. split; [|done].
    unfold is_dir in Hdir. by destruct (n_kind nd).
  - destruct (transcribeAudio_logs apiKey audioPath (logs [EvStat (TranscriptionFile config)] w))
      as (r & evs & Hlogs).
    rewrite (main_transcript_fresh _ _ _ _ _ Hfs Hlogs) in Hrun.
    destruct r as [t|e]; [|discriminate].
    destruct (w_creat w); [|discriminate].
    injection Hrun as <- <-. cbn [w_fs set_fs]. split.
    + eexists. rewrite lookup_insert_eq. split; [reflexivity|]. split; [done|].
      apply string_of_bytes_of.
    + intros name Hname. by rewrite lookup_insert_ne.
Qed.

End Runs.

(** ** The clients *)

Section ClientClaims.

Context {codec : JsonCodec}.

(** C2: an audio file whose reported size is above 25 MiB makes
    [transcribeAudio] return the size-limit error, which names the actual and
    the maximal size; the only thing it has done by then is the [Stat]: the
    file is not opened, no request is built or sent. *)
Theorem oversized_audio_is_rejected apiKey audioPath w n :
  w_fs w !! audioPath = Some n ->
  25 * 1024 * 1024 < n_size n ->
  MaxAudioFileSize config = 25 * 1024 * 1024
  /\ transcribeAudio apiKey audioPath w =
       (Returned (Err ("audio file too large: " +:+ FormatInt (n_size n)
                       +:+ " bytes (max: " +:+ FormatInt (25 * 1024 * 1024) +:+ " bytes)")),
        logs [EvStat audioPath] w)
  /\ w_trace (transcribeAudio apiKey audioPath w).2 = w_trace w ++ [EvStat audioPath]
  /\ ParseInt (FormatInt (n_size n)) = Some (n_size n).
Proof.
  intros Hfs Hsize. split; [reflexivity|].
  rewrite (transcribeAudio_large apiKey audioPath w n Hfs Hsize).
  split; [done|]. split; [done|]. apply ParseInt_FormatInt.
Qed.

(** What both clients return for a response that is not a 200. *)
Lemma transcriptionResult_non200 resp :
  StatusCode resp <> 200 ->
  transcriptionResult resp =
    Err ("non-200 response: " +:+ FormatInt (StatusCode resp) +:+ ", body: "
         +:+ string_of (limitRead (MaxResponseBodySize config) (Body resp))).
Proof.
  intros Hcode. unfold transcriptionResult.
  by destruct (Z.eqb_spec (StatusCode resp) StatusOK).
Qed.

Lemma diarizationResult_non200 resp :
  StatusCode resp <> 200 ->
  diarizationResult resp =
    Err ("non-200 response from chat completion: " +:+ FormatInt (StatusCode resp)
         +:+ ", body: " +:+ string_of (limitRead (MaxResponseBodySize config) (Body resp))).
Proof.
  intros Hcode. unfold diarizationResult.
  by destruct (Z.eqb_spec (StatusCode resp) StatusOK).
Qed.

Lemma transcribeAudio_answer apiKey audioPath w n resp :
  w_fs w !! audioPath = Some n ->
  n_size n <= MaxAudioFileSize config ->
  n_read n = true ->
  n_kind n = Regular ->
  w_upstream w (transcriptionRequest apiKey audioPath (w_boundary w) (n_data n)) = Ok resp ->
  (transcribeAudio apiKey audioPath w).1 = Returned (transcriptionResult resp).
Proof.
  intros Hfs Hsize Hread Hkind Hup.
  rewrite (transcribeAudio_sends apiKey audioPath w n) by done. cbn zeta. by rewrite Hup.
Qed.

Lemma diarizeTranscript_answer apiKey transcript numSpeakers w payloadBytes resp :
  json_Marshal (payload numSpeakers transcript) = Ok payloadBytes ->
  w_upstream w (diarizationRequest apiKey payloadBytes) = Ok resp ->
  (diarizeTranscript apiKey transcript numSpeakers w).1 = Returned (diarizationResult resp).
Proof.
  intros Hpay Hup. rewrite diarizeTranscript_run, Hpay. cbn zeta. by rewrite Hup.
Qed.


(** C9: 200 is the only status either client takes for a success.  Any other
    status, 201 and 204 included, gives the non-200 error, whatever the body
    holds: the result does not depend on how the body would decode. *)
Theorem only_200_is_success apiKey audioPath transcript numSpeakers w n payloadBytes resp :
  w_fs w !! audioPath = Some n ->
  n_size n <= MaxAudioFileSize config ->
  n_read n = true ->
  n_kind n = Regular ->
  json_Marshal (payload numSpeakers transcript) = Ok payloadBytes ->
  (forall req, w_upstream w req = Ok resp) ->
  StatusCode resp <> 200 ->
  (transcribeAudio apiKey audioPath w).1 =
    Returned (Err ("non-200 response: " +:+ FormatInt (StatusCode resp) +:+ ", body: "
                   +:+ string_of (limitRead (MaxResponseBodySize config) (Body resp))))
  /\ (diarizeTranscript apiKey transcript numSpeakers w).1 =
       Returned (Err ("non-200 response from chat completion: "
                      +:+ FormatInt (StatusCode resp) +:+ ", body: "
                      +:+ string_of (limitRead (MaxResponseBodySize config) (Body resp)))).
Proof.
  intros Hfs Hsize Hread Hkind Hpay Hup Hcode. split.
  - rewrite (transcribeAudio_answer apiKey audioPath w n resp) by done.
    by rewrite transcriptionResult_non200.
  - rewrite (diarizeTranscript_answer apiKey transcript numSpeakers w payloadBytes resp) by done.
    by rewrite diarizationResult_non200.
Qed.

(** C5: on a 200 response that decodes, [diarizeTranscript] returns the
    content of the message of the first choice, and fails with the
    no-choices error when the decoded list of choices is empty. *)
Theorem diarization_returns_first_choice apiKey transcript numSpeakers w payloadBytes resp res :
  json_Marshal (payload numSpeakers transcript) = Ok payloadBytes ->
  w_upstream w (diarizationRequest apiKey payloadBytes) = Ok resp ->
  StatusCode resp = 200 ->
  Decode decodeChat {| Choices := [] |} (Body resp) = Ok res ->
  (diarizeTranscript apiKey transcript numSpeakers w).1 =
    Returned (match Choices res with
              | first :: _ => Ok (Content (Message first))
              | [] => Err "no choices returned from chat completion"
              end).
Proof.
  intros Hpay Hup Hcode Hdec.
  rewrite (diarizeTranscript_answer apiKey transcript numSpeakers w payloadBytes resp) by done.
  unfold diarizationResult. rewrite Hcode, Hdec. cbn [Z.eqb StatusOK Pos.eqb].
  by destruct (Choices res).
Qed.

(** C8: the speaker count is not checked.  For every integer, zero and
    negative ones included, the prompt holds its decimal form and the whole
    transcript, the request carrying that prompt is sent, and the result is
    the one the answer to that request determines. *)
Theorem speaker_count_is_not_validated apiKey transcript (numSpeakers : Z) w payloadBytes :
  json_Marshal (payload numSpeakers transcript) = Ok payloadBytes ->
  prompt numSpeakers transcript =
    "You are an expert in speaker diarization." +:+ LF +:+
    "Given the following transcript of a podcast and knowing there are "
    +:+ FormatInt numSpeakers +:+
    " speakers, please insert clear breaks and label each segment with the appropriate speaker (e.g., "
    +:+ DQ +:+ "Speaker 1:" +:+ DQ +:+ ", " +:+ DQ +:+ "Speaker 2:" +:+ DQ +:+ ", etc.)." +:+ LF +:+
    LF +:+ "Transcript:" +:+ LF +:+ transcript +:+ LF +:+ LF +:+
    "Return the diarized transcript."
  /\ ParseInt (FormatInt numSpeakers) = Some numSpeakers
  /\ payload numSpeakers transcript =
       JObject [("model", JString "gpt-4o");
                ("messages",
                 JArray [JObject [("role", JString "user");
                                  ("content", JString (prompt numSpeakers transcript))]]);
                ("temperature", JNumber "0.3")]
  /\ (exists evs,
        w_trace (diarizeTranscript apiKey transcript numSpeakers w).2 =
          w_trace w ++ EvDo (diarizationRequest apiKey payloadBytes) :: evs)
  /\ (diarizeTranscript apiKey transcript numSpeakers w).1 =
       Returned (match w_upstream w (diarizationRequest apiKey payloadBytes) with
                 | Ok resp => diarizationResult resp
                 | Err e => Err (wrap "failed to send chat completion request: " e)
                 end).
Proof.
  intros Hpay. split; [reflexivity|]. split; [apply ParseInt_FormatInt|].
  split; [reflexivity|].
  rewrite diarizeTranscript_run, Hpay. cbn zeta.
  destruct (w_upstream w _); split; eauto.
Qed.

End ClientClaims.

Lemma oversized_audio_is_rejected_witness :
  transcribeAudio "sk-test" "podcast.mp3" Scenario.large =
    (Returned (Err "audio file too large: 31457280 bytes (max: 26214400 bytes)"),
     logs [EvStat "podcast.mp3"] Scenario.large).
Proof.
  refine (proj1 (proj2 (oversized_audio_is_rejected "sk-test" "podcast.mp3" Scenario.large
                          Scenario.bigAudio _ _))).
  - vm_compute. reflexivity.
  - vm_compute. reflexivity.
Defined.


Lemma only_200_is_success_witness :
  (transcribeAudio "sk-test" "podcast.mp3" Scenario.accepted).1 =
    Returned (Err ("non-200 response: 201, body: " +:+ Scenario.transcriptionJSON "hello world"))
  /\ (diarizeTranscript "sk-test" "hello world" 2 Scenario.accepted).1 =
       Returned (Err ("non-200 response from chat completion: 201, body: "
                      +:+ Scenario.transcriptionJSON "hello world")).
Proof.
  refine (only_200_is_success "sk-test" "podcast.mp3" "hello world" 2
            Scenario.accepted Scenario.audio (Scenario.payloadBytes 2 "hello world")
            {| StatusCode := 201; Body := bytes_of (Scenario.transcriptionJSON "hello world") |}
            _ _ _ _ _ _ _).
  - vm_compute. reflexivity.
  - vm_compute. discriminate.
  - reflexivity.
  - reflexivity.
  - reflexivity.
  - intros req. reflexivity.
  - discriminate.
Defined.

Lemma diarization_returns_first_choice_witness :
  (diarizeTranscript "sk-test" "hello world" 2 Scenario.fresh).1 =
    Returned (Ok "Speaker 1: hello world").
Proof.
  refine (diarization_returns_first_choice "sk-test" "hello world" 2 Scenario.fresh
            (Scenario.payloadBytes 2 "hello world")
            {| StatusCode := 200;
               Body := bytes_of (Scenario.chatJSON "Speaker 1: hello world") |}
            {| Choices := [ {| Message := {| Content := "Speaker 1: hello world" |} |} ] |}
            _ _ _ _).
  - reflexivity.
  - vm_compute. reflexivity.
  - reflexivity.
  - vm_compute. reflexivity.
Defined.

Lemma speaker_count_is_not_validated_witness :
  (exists evs,
     w_trace (diarizeTranscript "sk-test" "hello world" (-3) Scenario.fresh).2 =
       w_trace Scenario.fresh
       ++ EvDo (diarizationRequest "sk-test" (Scenario.payloadBytes (-3) "hello world")) :: evs)
  /\ (diarizeTranscript "sk-test" "hello world" (-3) Scenario.fresh).1 =
       Returned (Ok "Speaker 1: hello world").
Proof.
  pose proof (speaker_count_is_not_validated "sk-test" "hello world" (-3) Scenario.fresh
                (Scenario.payloadBytes (-3) "hello world") eq_refl)
    as (_ & _ & _ & Hsent & Hres).
  split; [exact Hsent|].
  rewrite Hres. vm_compute. reflexivity.
Defined.

(** ** Whole runs *)

Section RunClaims.

Context {codec : JsonCodec}.

(** A run that gets past the two checks of the arguments had both. *)
Lemma main_started audioPath numSpeakers w o w' :
  main audioPath numSpeakers w = (o, w') ->
  (exists code, o = Exited code /\ w_fs w' = w_fs w /\ code <> 0)
  \/ (exists apiKey, audioPath <> "" /\ apiKey <> ""
                     /\ w_env w !! "OPENAI_API_KEY" = Some apiKey).
Proof.
  intros Hrun. destruct (String.eqb_spec audioPath "") as [->|Hpath].
  { left. exists 1. unfold main in Hrun. unfold_ops. cbn in Hrun.
    injection Hrun as <- <-. done. }
  destruct (w_env w !! "OPENAI_API_KEY") as [apiKey|] eqn:Henv.
  - destruct (String.eqb_spec apiKey "") as [->|Hkey]; [|right; by exists apiKey].
    left. exists 1. unfold main in Hrun. apply String.eqb_neq in Hpath.
    rewrite Hpath in Hrun. revert Hrun. unfold_ops. rewrite Henv. cbn.
    intros [= <- <-]. done.
  - left. exists 1. unfold main in Hrun. apply String.eqb_neq in Hpath.
    rewrite Hpath in Hrun. revert Hrun. unfold_ops. rewrite Henv. cbn.
    intros [= <- <-]. done.
Qed.

(** The whole run when the cache file is there. *)
Lemma main_cached audioPath numSpeakers w apiKey nd :
  audioPath <> "" ->
  w_env w !! "OPENAI_API_KEY" = Some apiKey ->
  apiKey <> "" ->
  w_fs w !! TranscriptionFile config = Some nd ->
  main audioPath numSpeakers w =
    if n_read nd && negb (is_dir nd)
    then main_diarize apiKey (string_of (n_data nd)) numSpeakers
           (logs [EvStat (TranscriptionFile config); EvReadFile (TranscriptionFile config);
                  EvPrint Stdout loadedMessage] w)
    else (Exited 1,
          logs [EvStat (TranscriptionFile config); EvReadFile (TranscriptionFile config);
                EvPrint Stderr
                  ("Error reading " +:+ TranscriptionFile config +:+ ": " +:+
                   (if n_read nd then EISDIR "read" (TranscriptionFile config)
                    else EACCES "open" (TranscriptionFile config)) +:+ LF)] w).
Proof.
  intros Hpath Henv Hkey Hfs.
  rewrite (main_valid audioPath numSpeakers w apiKey) by done.
  unfold bind at 1. rewrite (main_transcript_present apiKey audioPath w nd Hfs).
  by destruct (n_read nd && negb (is_dir nd)).
Qed.


(** C6 (as the code has it): after a run that succeeds, the output file holds
    the header line, ended by one newline, then the text [diarizeTranscript]
    returned, then one newline.  Nothing stands between the header line and
    the text. *)
Theorem diarized_file_content audioPath numSpeakers w w' :
  main audioPath numSpeakers w = (Returned tt, w') ->
  exists apiKey transcript w1 d w2 nd,
    main_transcript apiKey audioPath w = (Returned transcript, w1)
    /\ diarizeTranscript apiKey transcript numSpeakers w1 = (Returned (Ok d), w2)
    /\ w_fs w' !! DiarizedFile config = Some nd
    /\ n_kind nd = Regular
    /\ n_size nd = Z.of_nat (length (n_data nd))
    /\ string_of (n_data nd) = "=== Diarized Transcript ===" +:+ LF +:+ d +:+ LF.
Proof.
  intros Hrun.
  destruct (main_started _ _ _ _ _ Hrun) as [(code & [=] & _)|(apiKey & Hpath & Hkey & Henv)].
  exists apiKey.
  rewrite (main_valid audioPath numSpeakers w apiKey) in Hrun by done.
  unfold bind at 1 in Hrun.
  destruct (main_transcript apiKey audioPath w) as [[transcript|code] w1]; [|discriminate].
  exists transcript, w1.
  destruct (diarizeTranscript_logs apiKey transcript numSpeakers w1) as (r & evs & Hdia & _).
  destruct r as [d|e]; [|by rewrite (main_diarize_failed _ _ _ _ _ _ Hdia) in Hrun].
  exists d, (logs evs w1).
  destruct (writable (logs evs w1) (DiarizedFile config)) eqn:Hwr.
  - rewrite (main_diarize_succeeded _ _ _ _ _ _ Hdia Hwr) in Hrun.
    injection Hrun as <-. eexists. split; [done|]. split; [done|].
    cbn [w_fs set_fs]. rewrite lookup_insert_eq. split; [reflexivity|].
    split; [done|]. split; [done|]. apply string_of_bytes_of.
  - destruct (main_diarize_unwritable _ _ _ _ _ _ Hdia Hwr) as (evs' & Hexit & _).
    by rewrite Hexit in Hrun.
Qed.

(** C7: when the diarization fails after the first stage, the process exits
    with status 1; between the end of the first stage and the exit no file is
    written, so the cache file is as the first stage left it (it holds the
    transcript) and the output file is as it was before the run. *)
Theorem diarization_failure_keeps_files audioPath numSpeakers w apiKey transcript w1 e w2 :
  audioPath <> "" ->
  w_env w !! "OPENAI_API_KEY" = Some apiKey ->
  apiKey <> "" ->
  main_transcript apiKey audioPath w = (Returned transcript, w1) ->
  diarizeTranscript apiKey transcript numSpeakers w1 = (Returned (Err e), w2) ->
  exists w3 evs,
    main audioPath numSpeakers w = (Exited 1, w3)
    /\ exit_status (main audioPath numSpeakers w).1 <> 0
    /\ w3 = logs evs w1
    /\ forallb (fun e => negb (isWrite e)) evs = true
    /\ w_fs w3 = w_fs w1
    /\ (exists nd, w_fs w3 !! TranscriptionFile config = Some nd
                   /\ n_kind nd = Regular
                   /\ string_of (n_data nd) = transcript)
    /\ w_fs w3 !! DiarizedFile config = w_fs w !! DiarizedFile config.
Proof.
  intros Hpath Henv Hkey Hfirst Hdia.
  destruct (diarizeTranscript_logs apiKey transcript numSpeakers w1) as (r & evs & Hlogs & Hevs).
  rewrite Hlogs in Hdia. injection Hdia as -> <-.
  destruct (main_transcript_returned _ _ _ _ _ Hfirst) as (Hcache & Hothers).
  rewrite (main_valid audioPath numSpeakers w apiKey) by done.
  unfold bind at 1 2. rewrite Hfirst, (main_diarize_failed _ _ _ _ _ _ Hlogs), logs_logs.
  do 2 eexists. split; [reflexivity|]. split; [done|]. split; [reflexivity|].
  split.
  { rewrite forallb_app, andb_true_iff. split; [|done].
    revert Hevs. apply forallb_weaken. by intros ? [_ ?]%andb_true_iff. }
  split; [done|]. split; [exact Hcache|].
  rewrite w_fs_logs. by apply Hothers.
Qed.


End RunClaims.

(** ** Decoding the transcription *)

Section Decoding.

Context {codec : JsonCodec}.

(** Members whose key does not match the field play no part. *)
Lemma decodeMembers_filter members cur :
  decodeMembers "text" setText members cur =
  decodeMembers "text" setText (List.filter isTextMember members) cur.
Proof.
  revert cur. induction members as [|[k v] members IH]; intros cur; [done|].
  cbn [decodeMembers List.filter]. unfold isTextMember at 1. cbn [fst].
  destruct (fieldMatch "text" k) eqn:Hk; [|apply IH].
  cbn [decodeMembers]. rewrite Hk.
  destruct (setText v cur); [apply IH | done].
Qed.

(** A matching member that is neither a string nor [null] is a type error,
    wherever it stands. *)
Lemma decodeMembers_mismatch members k v cur :
  In (k, v) members ->
  fieldMatch "text" k = true ->
  stringLike v = false ->
  exists e, decodeMembers "text" setText members cur = Err e.
Proof.
  intros Hin Hk Hv. revert cur.
  induction members as [|[k' v'] members IH]; intros cur; [destruct Hin|].
  cbn [decodeMembers]. destruct Hin as [[= -> ->]|Hin].
  - rewrite Hk. destruct v; try discriminate; cbn; eauto.
  - destruct (fieldMatch "text" k'); [|by apply IH].
    destruct (setText v' cur); [by apply IH | eauto].
Qed.

Lemma decodeTranscription_object members :
  decodeTranscription (JObject members) {| Text := "" |} =
  decodeMembers "text" setText members {| Text := "" |}.
Proof. reflexivity. Qed.

(** C4 (as the code has it): on a 200 response whose body is a JSON object,
    [transcribeAudio] returns the string of the member [text] whatever other
    members there are, and the empty string when there is no such member (or
    when the body is [null]).  Not every JSON shape is accepted: a [text]
    that is a number, a boolean, an array or an object, and a body that is
    not an object, are decode errors. *)
Theorem transcription_returns_text apiKey audioPath w n resp v :
  w_fs w !! audioPath = Some n ->
  n_size n <= MaxAudioFileSize config ->
  n_read n = true ->
  n_kind n = Regular ->
  w_upstream w (transcriptionRequest apiKey audioPath (w_boundary w) (n_data n)) = Ok resp ->
  StatusCode resp = 200 ->
  json_scan (Body resp) = Ok v ->
  (forall members k s,
     v = JObject members ->
     List.filter isTextMember members = [(k, JString s)] ->
     (transcribeAudio apiKey audioPath w).1 = Returned (Ok s))
  /\ (forall members,
        v = JObject members ->
        List.filter isTextMember members = [] ->
        (transcribeAudio apiKey audioPath w).1 = Returned (Ok ""))
  /\ (v = JNull -> (transcribeAudio apiKey audioPath w).1 = Returned (Ok ""))
  /\ (forall members k x,
        v = JObject members ->
        In (k, x) members -> fieldMatch "text" k = true -> stringLike x = false ->
        exists e, (transcribeAudio apiKey audioPath w).1 =
                  Returned (Err (wrap "failed to decode response: " e)))
  /\ (match v with JObject _ | JNull => False | _ => True end ->
      exists e, (transcribeAudio apiKey audioPath w).1 =
                Returned (Err (wrap "failed to decode response: " e))).
Proof.
  intros Hfs Hsize Hread Hkind Hup Hcode Hscan.
  rewrite (transcribeAudio_answer apiKey audioPath w n resp) by done.
  unfold transcriptionResult, Decode. rewrite Hcode, Hscan. cbn [Z.eqb StatusOK Pos.eqb].
  repeat split.
  - intros members k s -> Hfilter.
    assert (fieldMatch "text" k = true) as Hk.
    { assert (In (k, JString s) (List.filter isTextMember members)) as Hin
        by (rewrite Hfilter; by left).
      by apply filter_In in Hin as [_ Hin]. }
    rewrite decodeTranscription_object, decodeMembers_filter, Hfilter.
    cbn [decodeMembers]. by rewrite Hk.
  - intros members -> Hfilter.
    by rewrite decodeTranscription_object, decodeMembers_filter, Hfilter.
  - by intros ->.
  - intros members k x -> Hin Hk Hx.
    destruct (decodeMembers_mismatch members k x {| Text := "" |} Hin Hk Hx) as (e & He).
    rewrite decodeTranscription_object, He. eauto.
  - destruct v; try done; cbn; eauto.
Qed.

End Decoding.

(** ** The theorems at concrete worlds *)

Lemma transcription_returns_text_witness :
  (transcribeAudio "sk-test" "podcast.mp3" Scenario.verbose).1 = Returned (Ok "hello world").
Proof.
  refine (proj1 (transcription_returns_text "sk-test" "podcast.mp3" Scenario.verbose
                   Scenario.audio
                   {| StatusCode := 200;
                      Body := bytes_of
                        ("{" +:+ Scenario.quoted "task" +:+ ":" +:+ Scenario.quoted "transcribe"
                         +:+ "," +:+ Scenario.quoted "text" +:+ ":"
                         +:+ Scenario.quoted "hello world" +:+ ","
                         +:+ Scenario.quoted "duration" +:+ ":1.5}") |}
                   (JObject [("task", JString "transcribe"); ("text", JString "hello world");
                             ("duration", JNumber "1.5")])
                   _ _ _ _ _ _ _)
            [("task", JString "transcribe"); ("text", JString "hello world");
             ("duration", JNumber "1.5")] "text" "hello world" _ _).
  - vm_compute. reflexivity.
  - vm_compute. discriminate.
  - reflexivity.
  - reflexivity.
  - vm_compute. reflexivity.
  - reflexivity.
  - vm_compute. reflexivity.
  - reflexivity.
  - vm_compute. reflexivity.
Defined.

(** C4, the claim as worded: a 200 response whose body is the well-formed
    JSON object with [text] set to 42 is not accepted; the call fails. *)
Lemma numeric_text_is_rejected :
  json_scan (bytes_of ("{" +:+ Scenario.quoted "text" +:+ ":42}"))
    = Ok (JObject [("text", JNumber "42")])
  /\ w_upstream Scenario.numeric
       (transcriptionRequest "sk-test" "podcast.mp3" "f00dfeed" (bytes_of "RIFF"))
     = Ok {| StatusCode := 200; Body := bytes_of ("{" +:+ Scenario.quoted "text" +:+ ":42}") |}
  /\ (transcribeAudio "sk-test" "podcast.mp3" Scenario.numeric).1 =
       Returned (Err ("failed to decode response: json: cannot unmarshal number "
                      +:+ "into Go struct field .text of type string")).
Proof. vm_compute. repeat split. Qed.


Lemma diarized_file_content_witness :
  exists apiKey transcript w1 d w2 nd,
    main_transcript apiKey "podcast.mp3" Scenario.fresh = (Returned transcript, w1)
    /\ diarizeTranscript apiKey transcript 2 w1 = (Returned (Ok d), w2)
    /\ w_fs (main "podcast.mp3" 2 Scenario.fresh).2 !! DiarizedFile config = Some nd
    /\ n_kind nd = Regular
    /\ n_size nd = Z.of_nat (length (n_data nd))
    /\ string_of (n_data nd) = "=== Diarized Transcript ===" +:+ LF +:+ d +:+ LF.
Proof.
  refine (diarized_file_content "podcast.mp3" 2 Scenario.fresh
            (main "podcast.mp3" 2 Scenario.fresh).2 _).
  vm_compute. reflexivity.
Defined.

(** C6, the claim as worded: in the run of scenario 1 no blank line separates
    the header from the body. *)
Lemma no_blank_line_after_header :
  (main "podcast.mp3" 2 Scenario.fresh).1 = Returned tt
  /\ (n_data <$> w_fs (main "podcast.mp3" 2 Scenario.fresh).2 !! "diarized.txt")
     = Some (bytes_of ("=== Diarized Transcript ===" +:+ LF
                       +:+ "Speaker 1: hello world" +:+ LF))
  /\ (n_data <$> w_fs (main "podcast.mp3" 2 Scenario.fresh).2 !! "diarized.txt")
     <> Some (bytes_of ("=== Diarized Transcript ===" +:+ LF +:+ LF
                        +:+ "Speaker 1: hello world" +:+ LF)).
Proof. vm_compute. repeat split. discriminate. Qed.

Lemma diarization_failure_keeps_files_witness :
  exists w3 evs,
    main "podcast.mp3" 2 Scenario.limited = (Exited 1, w3)
    /\ exit_status (main "podcast.mp3" 2 Scenario.limited).1 <> 0
    /\ w3 = logs evs (main_transcript "sk-test" "podcast.mp3" Scenario.limited).2
    /\ forallb (fun e => negb (isWrite e)) evs = true
    /\ w_fs w3 = w_fs (main_transcript "sk-test" "podcast.mp3" Scenario.limited).2
    /\ (exists nd, w_fs w3 !! TranscriptionFile config = Some nd
                   /\ n_kind nd = Regular
                   /\ string_of (n_data nd) = "hello world")
    /\ w_fs w3 !! DiarizedFile config = w_fs Scenario.limited !! DiarizedFile config.
Proof.
  refine (diarization_failure_keeps_files "podcast.mp3" 2 Scenario.limited "sk-test"
            "hello world" (main_transcript "sk-test" "podcast.mp3" Scenario.limited).2
            "non-200 response from chat completion: 429, body: rate limit exceeded"
            (diarizeTranscript "sk-test" "hello world" 2
               (main_transcript "sk-test" "podcast.mp3" Scenario.limited).2).2
            _ _ _ _ _).
  - discriminate.
  - vm_compute. reflexivity.
  - discriminate.
  - vm_compute. reflexivity.
  - vm_compute. reflexivity.
Defined.


(** ** The end-to-end scenarios of the specification *)

Example FormatInt_examples :
  map FormatInt [0; 7; 429; -3; 26214400] = ["0"; "7"; "429"; "-3"; "26214400"].
Proof. reflexivity. Qed.

Example Base_examples :
  map Base ["podcast.mp3"; "/srv/audio/ep1.wav"; "dir/"; "///"; ""]
  = ["podcast.mp3"; "ep1.wav"; "dir"; "/"; "."].
Proof. reflexivity. Qed.

Example multipartBody_example :
  string_of (multipartBody "f00dfeed" "podcast.mp3" (bytes_of "RIFF")) =
    "--f00dfeed" +:+ CRLF +:+
    "Content-Disposition: form-data; name=" +:+ Scenario.quoted "file"
      +:+ "; filename=" +:+ Scenario.quoted "podcast.mp3" +:+ CRLF +:+
    "Content-Type: application/octet-stream" +:+ CRLF +:+ CRLF +:+
    "RIFF" +:+ CRLF +:+
    "--f00dfeed" +:+ CRLF +:+
    "Content-Disposition: form-data; name=" +:+ Scenario.quoted "model" +:+ CRLF +:+ CRLF +:+
    "whisper-1" +:+ CRLF +:+
    "--f00dfeed--" +:+ CRLF.
Proof. vm_compute. reflexivity. Qed.

(** Scenario 1: no cache file. *)
Example scenario_fresh :
  let run := main "podcast.mp3" 2 Scenario.fresh in
  exit_status run.1 = 0
  /\ contentOf run.2 "transcription.txt" = Some "hello world"
  /\ contentOf run.2 "diarized.txt"
     = Some ("=== Diarized Transcript ===" +:+ LF +:+ "Speaker 1: hello world" +:+ LF)
  /\ length (requestsTo (WhisperURL config) (w_trace run.2)) = 1%nat
  /\ length (requestsTo (ChatCompletionsURL config) (w_trace run.2)) = 1%nat.
Proof. vm_compute. repeat split. Qed.

(** Scenario 2: the cache file holds [cached text]. *)
Example scenario_cached :
  let run := main "podcast.mp3" 2 Scenario.cached in
  exit_status run.1 = 0
  /\ requestsTo (WhisperURL config) (w_trace run.2) = []
  /\ requestsTo (ChatCompletionsURL config) (w_trace run.2)
     = [diarizationRequest "sk-test" (Scenario.payloadBytes 2 "cached text")]
  /\ contentOf run.2 "transcription.txt" = Some "cached text".
Proof. vm_compute. repeat split. Qed.

(** Scenario 3: an audio file of 30 MiB. *)
Example scenario_large :
  let run := main "podcast.mp3" 2 Scenario.large in
  exit_status run.1 = 1
  /\ stderrOf (w_trace run.2)
     = ["Error transcribing audio: audio file too large: 31457280 bytes (max: 26214400 bytes)"
        +:+ LF]
  /\ List.filter isRequest (w_trace run.2) = []
  /\ contentOf run.2 "transcription.txt" = None.
Proof. vm_compute. repeat split. Qed.

(** Scenario 4: the diarization endpoint answers 429. *)
Example scenario_limited :
  let run := main "podcast.mp3" 2 Scenario.limited in
  exit_status run.1 = 1
  /\ stderrOf (w_trace run.2)
     = ["Error diarizing transcript: non-200 response from chat completion: 429, "
        +:+ "body: rate limit exceeded" +:+ LF]
  /\ contentOf run.2 "transcription.txt" = Some "hello world"
  /\ contentOf run.2 "diarized.txt" = None.
Proof. vm_compute. repeat split. Qed.

(** The choices of a chat completion. *)
Example no_choice :
  (diarizeTranscript "sk-test" "hello world" 2 Scenario.speechless).1
  = Returned (Err "no choices returned from chat completion").
Proof. vm_compute. reflexivity. Qed.

Example first_of_two_choices :
  (diarizeTranscript "sk-test" "hello world" 2 Scenario.twofold).1
  = Returned (Ok "Speaker 1: hi").
Proof. vm_compute. reflexivity. Qed.

(** The payload as the reference writer prints it, for a negative count. *)
Example payload_example :
  string_of (Scenario.payloadBytes (-1) "hi") =
    "{" +:+ Scenario.quoted "messages" +:+ ":[{" +:+ Scenario.quoted "content" +:+ ":"
    +:+ DQ +:+ "You are an expert in speaker diarization." +:+ BSL +:+ "n"
    +:+ "Given the following transcript of a podcast and knowing there are -1 speakers, "
    +:+ "please insert clear breaks and label each segment with the appropriate speaker (e.g., "
    +:+ BSL +:+ DQ +:+ "Speaker 1:" +:+ BSL +:+ DQ +:+ ", "
    +:+ BSL +:+ DQ +:+ "Speaker 2:" +:+ BSL +:+ DQ +:+ ", etc.)."
    +:+ BSL +:+ "n" +:+ BSL +:+ "n" +:+ "Transcript:" +:+ BSL +:+ "nhi"
    +:+ BSL +:+ "n" +:+ BSL +:+ "n" +:+ "Return the diarized transcript." +:+ DQ +:+ ","
    +:+ Scenario.quoted "role" +:+ ":" +:+ Scenario.quoted "user" +:+ "}],"
    +:+ Scenario.quoted "model" +:+ ":" +:+ Scenario.quoted "gpt-4o" +:+ ","
    +:+ Scenario.quoted "temperature" +:+ ":0.3}".
Proof. vm_compute. reflexivity. Qed.

(** * Further properties of the clients and of [main] *)

(** ** More observations *)

(** The requests a trace sent, and the files it wrote, oldest first. *)
Definition requests (tr : list event) : list Request :=
  flat_map (fun e => match e with EvDo req => [req] | _ => [] end) tr.

Definition writes (tr : list event) : list string :=
  flat_map (fun e => match e with EvWriteFile name _ => [name] | _ => [] end) tr.

Definition closes (tr : list event) : list string :=
  flat_map (fun e => match e with EvClose name => [name] | _ => [] end) tr.

Definition isCloseBody (e : event) : bool :=
  match e with EvCloseBody => true | _ => false end.

(** Whether the network answered with a response. *)
Definition is_Ok_response (r : result Response) : bool :=
  match r with Ok _ => true | Err _ => false end.

(** The entry at [audioPath] when [transcribeAudio] gets as far as sending
    it: the path is there, not above the size limit, readable, and not a
    directory. *)
Definition uploadable (w : World) (audioPath : string) : option node :=
  match w_fs w !! audioPath with
  | Some nd =>
      if (n_size nd <=? MaxAudioFileSize config)%Z && n_read nd && negb (is_dir nd)
      then Some nd else None
  | None => None
  end.

(** Whether [transcribeAudio] gets a file open at [audioPath]: the path is
    there, not above the size limit, and readable. *)
Definition opened (w : World) (audioPath : string) : bool :=
  match w_fs w !! audioPath with
  | Some nd => (n_size nd <=? MaxAudioFileSize config)%Z && n_read nd
  | None => false
  end.

(** What stands before and after the file's bytes in the multipart body. *)
Definition multipartHead (boundary filename : string) : list byte :=
  bytes_of ("--" +:+ boundary +:+ CRLF
            +:+ String.concat ""
                  (map headerLine
                     [("Content-Disposition",
                       "form-data; name=" +:+ DQ +:+ escapeQuotes "file" +:+ DQ
                       +:+ "; filename=" +:+ DQ +:+ escapeQuotes filename +:+ DQ);
                      ("Content-Type", "application/octet-stream")])
            +:+ CRLF).

Definition multipartTail (boundary : string) : list byte :=
  bytes_of (CRLF +:+ "--" +:+ boundary +:+ CRLF
            +:+ String.concat ""
                  (map headerLine
                     [("Content-Disposition",
                       "form-data; name=" +:+ DQ +:+ escapeQuotes "model" +:+ DQ)])
            +:+ CRLF)
  ++ bytes_of "whisper-1"
  ++ bytes_of (CRLF +:+ "--" +:+ boundary +:+ "--" +:+ CRLF).

Section MoreViews.

Context {codec : JsonCodec}.

(** [transcribeAudio] in one piece: every way through it, with what it
    returns and what it has done by then. *)
Definition transcriptionRun (apiKey audioPath : string) (w : World)
  : outcome (result string) * World :=
  match w_fs w !! audioPath with
  | None =>
      (Returned (Err (wrap "failed to get file info: " (ENOENT "stat" audioPath))),
       logs [EvStat audioPath] w)
  | Some nd =>
      if (n_size nd >? MaxAudioFileSize config)%Z then
        (Returned (Err ("audio file too large: " +:+ FormatInt (n_size nd)
                        +:+ " bytes (max: " +:+ FormatInt (MaxAudioFileSize config)
                        +:+ " bytes)")),
         logs [EvStat audioPath] w)
      else if negb (n_read nd) then
        (Returned (Err (wrap "failed to open audio file: " (EACCES "open" audioPath))),
         logs [EvStat audioPath; EvOpen audioPath] w)
      else if is_dir nd then
        (Returned (Err (wrap "failed to copy file content: " (EISDIR "read" audioPath))),
         logs [EvStat audioPath; EvOpen audioPath; EvCopy audioPath; EvClose audioPath] w)
      else
        let req := transcriptionRequest apiKey audioPath (w_boundary w) (n_data nd) in
        match w_upstream w req with
        | Ok resp =>
            (Returned (transcriptionResult resp),
             logs [EvStat audioPath; EvOpen audioPath; EvCopy audioPath; EvDo req;
                   EvCloseBody; EvClose audioPath] w)
        | Err e =>
            (Returned (Err (wrap "failed to send request: " e)),
             logs [EvStat audioPath; EvOpen audioPath; EvCopy audioPath; EvDo req;
                   EvClose audioPath] w)
        end
  end.

End MoreViews.

Section MoreClients.

Context {codec : JsonCodec}.

Lemma transcribeAudio_run apiKey audioPath w :
  transcribeAudio apiKey audioPath w = transcriptionRun apiKey audioPath w.
Proof.
  unfold transcriptionRun.
  destruct (w_fs w !! audioPath) as [nd|] eqn:Hfs;
    [|by apply transcribeAudio_absent].
  destruct (Z.gtb_spec (n_size nd) (MaxAudioFileSize config)) as [Hgt|Hle];
    [by apply transcribeAudio_large|].
  destruct (n_read nd) eqn:Hread; cbn [negb].
  - destruct (is_dir nd) eqn:Hdir.
    + unfold transcribeAudio. unfold_ops. reduce. rewrite Hfs. reduce.
      destruct (Z.gtb_spec (n_size nd) (MaxAudioFileSize config)) as [?|_]; [lia|].
      reduce. rewrite Hfs. reduce. rewrite Hread. reduce. rewrite Hdir. reduce. done.
    + apply transcribeAudio_sends; [done | done | done |].
      unfold is_dir in Hdir. by destruct (n_kind nd).
  - unfold transcribeAudio. unfold_ops. reduce. rewrite Hfs. reduce.
    destruct (Z.gtb_spec (n_size nd) (MaxAudioFileSize config)) as [?|_]; [lia|].
    reduce. rewrite Hfs. reduce. rewrite Hread. reduce. done.
Qed.

Lemma multipartBody_split boundary filename data :
  multipartBody boundary filename data =
    multipartHead boundary filename ++ data ++ multipartTail boundary.
Proof.
  unfold multipartBody, multipartHead, multipartTail, finish, formField, formFile,
    startPart, wr_write.
  cbn [wr_buf wr_boundary wr_started app]. by rewrite <- !app_assoc.
Qed.

End MoreClients.

(** ** More concrete worlds *)
Module Edge.

(** Nothing at the audio path. *)
Definition absent : World :=
  Scenario.world ∅ (Scenario.respond Scenario.refused Scenario.refused).

(** The audio path is a directory. *)
Definition folder : node :=
  {| n_kind := Directory; n_size := 4096; n_data := []; n_read := true; n_write := true |}.

Definition directory : World :=
  Scenario.world {[ "podcast.mp3" := folder ]}
    (Scenario.respond Scenario.refused Scenario.refused).

(** The audio file may not be read. *)
Definition secret : node :=
  {| n_kind := Regular; n_size := 4; n_data := bytes_of "RIFF";
     n_read := false; n_write := true |}.

Definition unreadable : World :=
  Scenario.world {[ "podcast.mp3" := secret ]}
    (Scenario.respond Scenario.refused Scenario.refused).

(** The audio file is reported to be exactly 25 MiB long. *)
Definition full : node :=
  {| n_kind := Regular; n_size := 25 * 1024 * 1024; n_data := bytes_of "RIFF";
     n_read := true; n_write := true |}.

Definition atLimit : World :=
  Scenario.world {[ "podcast.mp3" := full ]}
    (Scenario.respond (Scenario.status 200 (Scenario.transcriptionJSON "hello world"))
                      Scenario.refused).

(** The network is down. *)
Definition offline : World :=
  Scenario.world {[ "podcast.mp3" := Scenario.audio ]} (fun _ => Scenario.refused).

(** Every request is answered 200 with a page that is not JSON. *)
Definition garbled : World :=
  Scenario.world {[ "podcast.mp3" := Scenario.audio ]}
    (fun _ => Scenario.status 200 "<html>").

(** No file can be created. *)
Definition readonly : World :=
  {| w_fs := {[ "podcast.mp3" := Scenario.audio ]};
     w_creat := false;
     w_env := {[ "OPENAI_API_KEY" := "sk-test" ]};
     w_boundary := "f00dfeed";
     w_upstream :=
       Scenario.respond (Scenario.status 200 (Scenario.transcriptionJSON "hello world"))
                        (Scenario.status 200 (Scenario.chatJSON "Speaker 1: hello world"));
     w_trace := [] |}.

(** The output file is there and may not be written. *)
Definition locked : node :=
  {| n_kind := Regular; n_size := 3; n_data := bytes_of "old";
     n_read := true; n_write := false |}.

Definition lockedOutput : World :=
  Scenario.world {[ "podcast.mp3" := Scenario.audio; "diarized.txt" := locked ]}
    (Scenario.respond (Scenario.status 200 (Scenario.transcriptionJSON "hello world"))
                      (Scenario.status 200 (Scenario.chatJSON "Speaker 1: hello world"))).

(** The key is not set. *)
Definition absent_key : World :=
  {| w_fs := {[ "podcast.mp3" := Scenario.audio ]};
     w_creat := true;
     w_env := ∅;
     w_boundary := "f00dfeed";
     w_upstream := Scenario.respond Scenario.refused Scenario.refused;
     w_trace := [] |}.






End Edge.

(** ** [transcribeAudio]: failures before the request, and the request *)

Section TranscribeMore.

Context {codec : JsonCodec}.

Lemma uploadable_Some w audioPath nd :
  uploadable w audioPath = Some nd <->
  w_fs w !! audioPath = Some nd /\ n_size nd <= MaxAudioFileSize config
  /\ n_read nd = true /\ is_dir nd = false.
Proof.
  unfold uploadable.
  destruct (w_fs w !! audioPath) as [nd'|]; [|split; [discriminate | by intros [? _]]].
  destruct (Z.leb_spec (n_size nd') (MaxAudioFileSize config)) as [Hle|Hgt];
    destruct (n_read nd') eqn:Hread; destruct (is_dir nd') eqn:Hdir; cbn [andb negb];
    split; intros H; try discriminate H.
  all: try (injection H as <-; done).
  all: destruct H as (Heq & Hsize & Hr & Hd); injection Heq as <-;
    first [ lia | congruence ].
Qed.

Lemma transcribeAudio_uploads apiKey audioPath w nd :
  uploadable w audioPath = Some nd ->
  transcribeAudio apiKey audioPath w =
    let req := transcriptionRequest apiKey audioPath (w_boundary w) (n_data nd) in
    match w_upstream w req with
    | Ok resp =>
        (Returned (transcriptionResult resp),
         logs [EvStat audioPath; EvOpen audioPath; EvCopy audioPath; EvDo req;
               EvCloseBody; EvClose audioPath] w)
    | Err e =>
        (Returned (Err (wrap "failed to send request: " e)),
         logs [EvStat audioPath; EvOpen audioPath; EvCopy audioPath; EvDo req;
               EvClose audioPath] w)
    end.
Proof.
  intros (Hfs & Hsize & Hread & Hdir)%uploadable_Some.
  apply transcribeAudio_sends; [done | done | done |].
  unfold is_dir in Hdir. by destruct (n_kind nd).
Qed.

Lemma transcribeAudio_unusable apiKey audioPath w :
  uploadable w audioPath = None ->
  exists e evs,
    transcribeAudio apiKey audioPath w = (Returned (Err e), logs evs w)
    /\ requests evs = []
    /\ writes evs = []
    /\ closes evs = (if opened w audioPath then [audioPath] else [])
    /\ (opened w audioPath = true -> last evs = Some (EvClose audioPath)).
Proof.
  intros Hup. rewrite transcribeAudio_run. unfold transcriptionRun.
  unfold uploadable in Hup. unfold opened.
  destruct (w_fs w !! audioPath) as [nd|] eqn:Hfs.
  - destruct (Z.gtb_spec (n_size nd) (MaxAudioFileSize config)) as [Hgt|Hle].
    { destruct (Z.leb_spec (n_size nd) (MaxAudioFileSize config)); [lia|].
      do 2 eexists. split; [reflexivity|]. done. }
    destruct (Z.leb_spec (n_size nd) (MaxAudioFileSize config)); [|lia].
    destruct (n_read nd); cbn [andb negb] in *.
    + destruct (is_dir nd); [|done].
      do 2 eexists. split; [reflexivity|]. done.
    + do 2 eexists. split; [reflexivity|]. done.
  - do 2 eexists. split; [reflexivity|]. done.
Qed.

(** X1: when the audio path cannot be uploaded (it is missing, too large,
    unreadable or a directory), [transcribeAudio] returns an error and has
    sent no request; the file is closed exactly when it had been opened.  A
    missing path is reported as a failed [Stat], after which nothing else is
    done. *)
Theorem unusable_audio_sends_nothing apiKey audioPath w :
  uploadable w audioPath = None ->
  (exists e evs,
     transcribeAudio apiKey audioPath w = (Returned (Err e), logs evs w)
     /\ requests evs = []
     /\ writes evs = []
     /\ closes evs = if opened w audioPath then [audioPath] else [])
  /\ (w_fs w !! audioPath = None ->
      transcribeAudio apiKey audioPath w =
        (Returned (Err ("failed to get file info: " +:+ ENOENT "stat" audioPath)),
         logs [EvStat audioPath] w)).
Proof.
  intros Hup. split.
  - destruct (transcribeAudio_unusable apiKey audioPath w Hup)
      as (e & evs & Hrun & Hreq & Hwr & Hcl & _).
    by exists e, evs.
  - intros Hfs. rewrite transcribeAudio_run. unfold transcriptionRun. by rewrite Hfs.
Qed.

(** X2: a directory that passes the size check is opened, fails when its
    content is copied into the form, and is closed; no request is sent. *)
Theorem audio_directory_fails_on_copy apiKey audioPath w nd :
  w_fs w !! audioPath = Some nd ->
  n_kind nd = Directory ->
  n_size nd <= MaxAudioFileSize config ->
  n_read nd = true ->
  transcribeAudio apiKey audioPath w =
    (Returned (Err ("failed to copy file content: " +:+ EISDIR "read" audioPath)),
     logs [EvStat audioPath; EvOpen audioPath; EvCopy audioPath; EvClose audioPath] w).
Proof.
  intros Hfs Hkind Hsize Hread. rewrite transcribeAudio_run. unfold transcriptionRun.
  rewrite Hfs, Hread. unfold is_dir. rewrite Hkind.
  by destruct (Z.gtb_spec (n_size nd) (MaxAudioFileSize config)); [lia|].
Qed.

(** X3: a file the process may not read fails at [os.Open]; nothing was
    opened, so nothing is closed, and no request is sent. *)
Theorem unreadable_audio_fails_on_open apiKey audioPath w nd :
  w_fs w !! audioPath = Some nd ->
  n_size nd <= MaxAudioFileSize config ->
  n_read nd = false ->
  transcribeAudio apiKey audioPath w =
    (Returned (Err ("failed to open audio file: " +:+ EACCES "open" audioPath)),
     logs [EvStat audioPath; EvOpen audioPath] w).
Proof.
  intros Hfs Hsize Hread. rewrite transcribeAudio_run. unfold transcriptionRun.
  rewrite Hfs, Hread.
  by destruct (Z.gtb_spec (n_size nd) (MaxAudioFileSize config)); [lia|].
Qed.

Lemma transcribeAudio_summary apiKey audioPath w :
  exists r evs,
    transcribeAudio apiKey audioPath w = (Returned r, logs evs w)
    /\ writes evs = []
    /\ requests evs =
         match uploadable w audioPath with
         | Some nd => [transcriptionRequest apiKey audioPath (w_boundary w) (n_data nd)]
         | None => []
         end
    /\ closes evs = (if opened w audioPath then [audioPath] else [])
    /\ (opened w audioPath = true -> last evs = Some (EvClose audioPath)).
Proof.
  destruct (uploadable w audioPath) as [nd|] eqn:Hup.
  - rewrite (transcribeAudio_uploads apiKey audioPath w nd Hup). cbn zeta.
    apply uploadable_Some in Hup as (Hfs & Hsize & Hread & Hdir).
    unfold opened. rewrite Hfs, Hread.
    destruct (Z.leb_spec (n_size nd) (MaxAudioFileSize config)); [|lia].
    destruct (w_upstream w _); do 2 eexists; (split; [reflexivity|]); done.
  - destruct (transcribeAudio_unusable apiKey audioPath w Hup)
      as (e & evs & Hrun & Hreq & Hwr & Hcl & Hlast).
    exists (Err e), evs. done.
Qed.

(** X4: [transcribeAudio] always returns, writes no file and changes nothing
    in the world but the trace; it sends one request when the audio path can
    be uploaded and none otherwise, and it closes the file exactly when it
    had opened it, as its last action. *)
Theorem transcribeAudio_effects apiKey audioPath w :
  exists r evs,
    transcribeAudio apiKey audioPath w = (Returned r, logs evs w)
    /\ writes evs = []
    /\ requests evs =
         match uploadable w audioPath with
         | Some nd => [transcriptionRequest apiKey audioPath (w_boundary w) (n_data nd)]
         | None => []
         end
    /\ closes evs = (if opened w audioPath then [audioPath] else [])
    /\ (opened w audioPath = true -> last evs = Some (EvClose audioPath)).
Proof. apply transcribeAudio_summary. Qed.

(** No request of [transcribeAudio] goes to the chat URL. *)
Lemma transcribeAudio_effects_aux apiKey audioPath w :
  exists r evs,
    transcribeAudio apiKey audioPath w = (Returned r, logs evs w)
    /\ requestsTo (ChatCompletionsURL config) evs = [].
Proof.
  destruct (uploadable w audioPath) as [nd|] eqn:Hup.
  - rewrite (transcribeAudio_uploads apiKey audioPath w nd Hup). cbn zeta.
    destruct (w_upstream w _); do 2 eexists; (split; [reflexivity|]); done.
  - destruct (transcribeAudio_unusable apiKey audioPath w Hup)
      as (e & evs & Hrun & Hreq & _).
    exists (Err e), evs. split; [done|].
    clear Hrun. induction evs as [|ev evs IH]; [done|].
    destruct ev; try (apply IH; exact Hreq). discriminate Hreq.
Qed.

End TranscribeMore.

Section ClientsMore.

Context {codec : JsonCodec}.

(** X5: the size limit is inclusive: a readable regular file of exactly
    [MaxAudioFileSize] bytes is uploaded. *)
Theorem audio_at_size_limit_is_sent apiKey audioPath w nd :
  w_fs w !! audioPath = Some nd ->
  n_size nd = 25 * 1024 * 1024 ->
  n_read nd = true ->
  n_kind nd = Regular ->
  exists r evs,
    transcribeAudio apiKey audioPath w = (Returned r, logs evs w)
    /\ requests evs = [transcriptionRequest apiKey audioPath (w_boundary w) (n_data nd)].
Proof.
  intros Hfs Hsize Hread Hkind.
  rewrite (transcribeAudio_sends apiKey audioPath w nd Hfs) by (done || (rewrite Hsize; done)).
  cbn zeta. destruct (w_upstream w _); do 2 eexists; (split; [reflexivity|]); done.
Qed.

(** X6: the request [transcribeAudio] sends is a POST to the transcription
    URL that carries the key as a bearer token, announces the boundary of its
    body, and has the bytes of the audio file, unchanged, between a head and
    a tail that depend on the boundary and on the base name of the path
    only. *)
Theorem upload_carries_file_bytes apiKey audioPath w nd :
  uploadable w audioPath = Some nd ->
  exists r evs req,
    transcribeAudio apiKey audioPath w = (Returned r, logs evs w)
    /\ requests evs = [req]
    /\ Method req = "POST"
    /\ URL req = WhisperURL config
    /\ Header req =
         [("Authorization", "Bearer " +:+ apiKey);
          ("Content-Type",
           "multipart/form-data; boundary=" +:+
           (if existsb tspecial (list_ascii_of_string (w_boundary w))
            then DQ +:+ w_boundary w +:+ DQ else w_boundary w))]
    /\ ReqBody req =
         multipartHead (w_boundary w) (Base audioPath) ++ n_data nd
           ++ multipartTail (w_boundary w).
Proof.
  intros Hup. rewrite (transcribeAudio_uploads apiKey audioPath w nd Hup). cbn zeta.
  destruct (w_upstream w _); do 3 eexists; (split; [reflexivity|]);
    (split; [reflexivity|]); repeat split; apply multipartBody_split.
Qed.

(** X7: when the transport fails, each client returns the transport error
    under its own heading; there is no response body to close, and the audio
    file is closed. *)
Theorem transport_failure_is_reported apiKey audioPath transcript numSpeakers w nd payloadBytes e :
  uploadable w audioPath = Some nd ->
  json_Marshal (payload numSpeakers transcript) = Ok payloadBytes ->
  (forall req, w_upstream w req = Err e) ->
  transcribeAudio apiKey audioPath w =
    (Returned (Err ("failed to send request: " +:+ e)),
     logs [EvStat audioPath; EvOpen audioPath; EvCopy audioPath;
           EvDo (transcriptionRequest apiKey audioPath (w_boundary w) (n_data nd));
           EvClose audioPath] w)
  /\ diarizeTranscript apiKey transcript numSpeakers w =
       (Returned (Err ("failed to send chat completion request: " +:+ e)),
        logs [EvDo (diarizationRequest apiKey payloadBytes)] w).
Proof.
  intros Hup Hpay Hnet. split.
  - rewrite (transcribeAudio_uploads apiKey audioPath w nd Hup). cbn zeta. by rewrite Hnet.
  - rewrite diarizeTranscript_run, Hpay. cbn zeta. by rewrite Hnet.
Qed.

(** X8: a 200 response whose body the JSON decoder cannot read makes each
    client fail with its decode error, which carries the decoder's error. *)
Theorem unreadable_body_is_a_decode_error apiKey audioPath transcript numSpeakers w nd payloadBytes
    resp e :
  uploadable w audioPath = Some nd ->
  json_Marshal (payload numSpeakers transcript) = Ok payloadBytes ->
  (forall req, w_upstream w req = Ok resp) ->
  StatusCode resp = 200 ->
  json_scan (Body resp) = Err e ->
  (transcribeAudio apiKey audioPath w).1 =
    Returned (Err ("failed to decode response: " +:+ e))
  /\ (diarizeTranscript apiKey transcript numSpeakers w).1 =
       Returned (Err ("failed to decode chat completion response: " +:+ e)).
Proof.
  intros Hup Hpay Hnet Hcode Hscan. split.
  - rewrite (transcribeAudio_uploads apiKey audioPath w nd Hup). cbn zeta. rewrite Hnet.
    cbn [fst]. unfold transcriptionResult, Decode. by rewrite Hcode, Hscan.
  - rewrite diarizeTranscript_run, Hpay. cbn zeta. rewrite Hnet.
    cbn [fst]. unfold diarizationResult, Decode. by rewrite Hcode, Hscan.
Qed.

(** X9: when a response that is not a 200 has a body of at most 10 MiB, the
    error of each client carries the whole body. *)
Theorem short_error_body_is_reported_whole apiKey audioPath transcript numSpeakers w nd
    payloadBytes resp :
  uploadable w audioPath = Some nd ->
  json_Marshal (payload numSpeakers transcript) = Ok payloadBytes ->
  (forall req, w_upstream w req = Ok resp) ->
  StatusCode resp <> 200 ->
  Z.of_nat (length (Body resp)) <= 10 * 1024 * 1024 ->
  (transcribeAudio apiKey audioPath w).1 =
    Returned (Err ("non-200 response: " +:+ FormatInt (StatusCode resp) +:+ ", body: "
                   +:+ string_of (Body resp)))
  /\ (diarizeTranscript apiKey transcript numSpeakers w).1 =
       Returned (Err ("non-200 response from chat completion: "
                      +:+ FormatInt (StatusCode resp) +:+ ", body: "
                      +:+ string_of (Body resp))).
Proof.
  intros Hup Hpay Hnet Hcode Hlen. split.
  - rewrite (transcribeAudio_uploads apiKey audioPath w nd Hup). cbn zeta. rewrite Hnet.
    cbn [fst]. rewrite transcriptionResult_non200 by done.
    by rewrite limitRead_all.
  - rewrite diarizeTranscript_run, Hpay. cbn zeta. rewrite Hnet.
    cbn [fst]. rewrite diarizationResult_non200 by done.
    by rewrite limitRead_all.
Qed.


(** X11: [diarizeTranscript] always returns, writes no file and changes
    nothing in the world but the trace; when the payload marshals it sends
    exactly one request, a POST of the payload to the chat URL with the key
    as a bearer token, and it closes a response body exactly when it got a
    response. *)
Theorem diarizeTranscript_effects apiKey transcript numSpeakers w :
  exists r evs,
    diarizeTranscript apiKey transcript numSpeakers w = (Returned r, logs evs w)
    /\ writes evs = []
    /\ requests evs =
         match json_Marshal (payload numSpeakers transcript) with
         | Ok payloadBytes =>
             [ {| Method := "POST";
                  URL := ChatCompletionsURL config;
                  Header := [("Authorization", "Bearer " +:+ apiKey);
                             ("Content-Type", "application/json")];
                  ReqBody := payloadBytes |} ]
         | Err _ => []
         end
    /\ List.filter isCloseBody evs =
         match json_Marshal (payload numSpeakers transcript) with
         | Ok payloadBytes =>
             if is_Ok_response (w_upstream w (diarizationRequest apiKey payloadBytes))
             then [EvCloseBody] else []
         | Err _ => []
         end.
Proof.
  rewrite diarizeTranscript_run.
  destruct (json_Marshal _) as [payloadBytes|e].
  - cbn zeta. destruct (w_upstream w _); do 2 eexists; (split; [reflexivity|]); done.
  - exists (Err (wrap "failed to marshal payload: " e)), []. by rewrite logs_nil.
Qed.

End ClientsMore.

(** ** Decoding the chat completion *)

(** The members of an object that a struct field named [name] takes. *)
Definition isMember (name : string) (m : string * json) : bool := fieldMatch name m.1.

Definition arrayLike (v : json) : bool :=
  match v with
  | JArray _ | JNull => true
  | _ => false
  end.

Section ChatDecoding.

Context {codec : JsonCodec}.

Lemma decodeMembers_matching {T} name (f : json -> T -> result T) members cur :
  decodeMembers name f members cur =
  decodeMembers name f (List.filter (isMember name) members) cur.
Proof.
  revert cur. induction members as [|[k v] members IH]; intros cur; [done|].
  cbn [decodeMembers List.filter]. unfold isMember at 1. cbn [fst].
  destruct (fieldMatch name k) eqn:Hk; [|apply IH].
  cbn [decodeMembers]. rewrite Hk. destruct (f v cur); [apply IH | done].
Qed.

Lemma decodeMembers_none {T} name (f : json -> T -> result T) members cur :
  List.filter (isMember name) members = [] ->
  decodeMembers name f members cur = Ok cur.
Proof. intros Hnone. by rewrite decodeMembers_matching, Hnone. Qed.

Lemma decodeMembers_one {T} name (f : json -> T -> result T) members k v cur :
  List.filter (isMember name) members = [(k, v)] ->
  decodeMembers name f members cur = f v cur.
Proof.
  intros Hone.
  assert (fieldMatch name k = true) as Hk.
  { assert (In (k, v) (List.filter (isMember name) members)) as Hin
      by (rewrite Hone; by left).
    by apply filter_In in Hin as [_ Hin]. }
  rewrite decodeMembers_matching, Hone. cbn [decodeMembers]. rewrite Hk.
  by destruct (f v cur).
Qed.



Lemma diarizeTranscript_decodes apiKey transcript numSpeakers w payloadBytes resp v :
  json_Marshal (payload numSpeakers transcript) = Ok payloadBytes ->
  w_upstream w (diarizationRequest apiKey payloadBytes) = Ok resp ->
  StatusCode resp = 200 ->
  json_scan (Body resp) = Ok v ->
  (diarizeTranscript apiKey transcript numSpeakers w).1 =
    Returned (match decodeChat v {| Choices := [] |} with
              | Ok res =>
                  match Choices res with
                  | [] => Err "no choices returned from chat completion"
                  | first :: _ => Ok (Content (Message first))
                  end
              | Err e => Err (wrap "failed to decode chat completion response: " e)
              end).
Proof.
  intros Hpay Hup Hcode Hscan.
  rewrite (diarizeTranscript_answer apiKey transcript numSpeakers w payloadBytes resp) by done.
  unfold diarizationResult, Decode. by rewrite Hcode, Hscan.
Qed.

(** X12: on a 200 response, a body without a [choices] member, with
    [choices] set to [null] or to the empty array, or a body that is [null],
    gives the no-choices error; a [choices] that is neither an array nor
    [null] is a decode error. *)
Theorem missing_choices_is_the_no_choices_error apiKey transcript numSpeakers w payloadBytes
    resp v :
  json_Marshal (payload numSpeakers transcript) = Ok payloadBytes ->
  w_upstream w (diarizationRequest apiKey payloadBytes) = Ok resp ->
  StatusCode resp = 200 ->
  json_scan (Body resp) = Ok v ->
  (v = JNull ->
   (diarizeTranscript apiKey transcript numSpeakers w).1 =
     Returned (Err "no choices returned from chat completion"))
  /\ (forall members,
        v = JObject members ->
        List.filter (isMember "choices") members = [] ->
        (diarizeTranscript apiKey transcript numSpeakers w).1 =
          Returned (Err "no choices returned from chat completion"))
  /\ (forall members k x,
        v = JObject members ->
        List.filter (isMember "choices") members = [(k, x)] ->
        x = JNull \/ x = JArray [] ->
        (diarizeTranscript apiKey transcript numSpeakers w).1 =
          Returned (Err "no choices returned from chat completion"))
  /\ (forall members k x,
        v = JObject members ->
        List.filter (isMember "choices") members = [(k, x)] ->
        arrayLike x = false ->
        exists e, (diarizeTranscript apiKey transcript numSpeakers w).1 =
                  Returned (Err (wrap "failed to decode chat completion response: " e))).
Proof.
  intros Hpay Hup Hcode Hscan.
  rewrite (diarizeTranscript_decodes apiKey transcript numSpeakers w payloadBytes resp v)
    by done.
  repeat split.
  - by intros ->.
  - intros members -> Hnone. unfold decodeChat, decodeStruct.
    by rewrite decodeMembers_none.
  - intros members k x -> Hone Hx. unfold decodeChat, decodeStruct.
    rewrite (decodeMembers_one _ _ _ k x) by done.
    by destruct Hx as [-> | ->].
  - intros members k x -> Hone Hx. unfold decodeChat, decodeStruct.
    rewrite (decodeMembers_one _ _ _ k x) by done.
    destruct x; try discriminate Hx; cbn; eauto.
Qed.


End ChatDecoding.

(** ** [main]: the ways a run ends *)

Definition usageAudio : string :=
  "Please provide the path to the audio file using -audio" +:+ LF.

Definition usageKey : string :=
  "Please set the OPENAI_API_KEY environment variable" +:+ LF.

Section MainMore.

Context {codec : JsonCodec}.

Lemma requests_app a b : requests (a ++ b) = requests a ++ requests b.
Proof. unfold requests. apply flat_map_app. Qed.

Lemma writes_app a b : writes (a ++ b) = writes a ++ writes b.
Proof. unfold writes. apply flat_map_app. Qed.

Lemma set_fs_set_fs fs fs' w : set_fs fs' (set_fs fs w) = set_fs fs' w.
Proof. reflexivity. Qed.

Lemma main_no_audio numSpeakers w :
  main "" numSpeakers w = (Exited 1, logs [EvPrint Stderr usageAudio] w).
Proof. reflexivity. Qed.

Lemma main_no_key audioPath numSpeakers w :
  audioPath <> "" ->
  default "" (w_env w !! "OPENAI_API_KEY") = "" ->
  main audioPath numSpeakers w = (Exited 1, logs [EvPrint Stderr usageKey] w).
Proof.
  intros Hpath%String.eqb_neq Hkey. unfold main. rewrite Hpath.
  unfold os_Getenv, bind, ret. rewrite Hkey. reflexivity.
Qed.

(** X14: the two checks of the arguments come first and in this order.
    Without [-audio] the run prints the usage line and exits with status 1,
    whether the key is set or not; with [-audio] but with [OPENAI_API_KEY]
    unset or empty it prints the line about the key and exits with status 1.
    In both cases it has looked at no file and sent nothing. *)
Theorem argument_checks_come_first audioPath numSpeakers w :
  audioPath = "" \/ default "" (w_env w !! "OPENAI_API_KEY") = "" ->
  main audioPath numSpeakers w =
    (Exited 1,
     logs [EvPrint Stderr (if String.eqb audioPath "" then usageAudio else usageKey)] w).
Proof.
  intros Hbad. destruct (String.eqb_spec audioPath "") as [->|Hpath].
  - apply main_no_audio.
  - destruct Hbad as [?|Hkey]; [done|]. by apply main_no_key.
Qed.

(** X15: when the transcription fails, the run reports it and exits with
    status 1: nothing is cached, no file has changed, and the diarization is
    not attempted. *)
Theorem transcription_failure_aborts audioPath numSpeakers w apiKey e w1 :
  audioPath <> "" ->
  w_env w !! "OPENAI_API_KEY" = Some apiKey ->
  apiKey <> "" ->
  w_fs w !! TranscriptionFile config = None ->
  transcribeAudio apiKey audioPath (logs [EvStat (TranscriptionFile config)] w)
    = (Returned (Err e), w1) ->
  main audioPath numSpeakers w =
    (Exited 1, logs [EvPrint Stderr ("Error transcribing audio: " +:+ e +:+ LF)] w1)
  /\ w_fs w1 = w_fs w
  /\ requestsTo (ChatCompletionsURL config) (w_trace (main audioPath numSpeakers w).2)
     = requestsTo (ChatCompletionsURL config) (w_trace w)
  /\ w_fs (main audioPath numSpeakers w).2 !! TranscriptionFile config = None.
Proof.
  intros Hpath Henv Hkey Hfs Htr.
  assert (main audioPath numSpeakers w =
          (Exited 1, logs [EvPrint Stderr ("Error transcribing audio: " +:+ e +:+ LF)] w1))
    as Hmain.
  { rewrite (main_valid audioPath numSpeakers w apiKey) by done.
    unfold bind at 1. by rewrite (main_transcript_fresh _ _ _ _ _ Hfs Htr). }
  destruct (transcribeAudio_effects_aux apiKey audioPath
              (logs [EvStat (TranscriptionFile config)] w)) as (r & evs & Hrun & Hreq).
  rewrite Hrun in Htr. injection Htr as -> <-.
  rewrite Hmain. cbn [snd]. rewrite !logs_logs, w_fs_logs, w_trace_logs.
  repeat split; [|done].
  rewrite !requestsTo_app, Hreq. cbn. by rewrite app_nil_r.
Qed.

End MainMore.

Section MainShape.

Context {codec : JsonCodec}.

Lemma files_differ : TranscriptionFile config <> DiarizedFile config.
Proof. discriminate. Qed.

Lemma set_fs_logs_same evs w : set_fs (w_fs w) (logs evs w) = logs evs w.
Proof. apply (set_fs_same (logs evs w)). Qed.

Lemma main_diarize_unwritable_exact apiKey transcript numSpeakers w d w2 :
  diarizeTranscript apiKey transcript numSpeakers w = (Returned (Ok d), w2) ->
  writable w2 (DiarizedFile config) = false ->
  exists reason,
    main_diarize apiKey transcript numSpeakers w =
      (Exited 1,
       logs [EvWriteFile (DiarizedFile config) (diarizedContent d);
             EvPrint Stderr ("Error writing diarized transcript to file: "
                             +:+ reason +:+ LF)] w2).
Proof.
  intros Hrun Hwr. unfold main_diarize. unfold bind at 1. rewrite Hrun.
  unfold writable in Hwr. unfold_ops. reduce.
  destruct (w_fs w2 !! DiarizedFile config) as [nd|] eqn:Hfs.
  - destruct (is_dir nd); reduce; [eauto|].
    cbn [negb andb] in Hwr. rewrite Hwr. reduce. eauto.
  - rewrite Hwr. reduce. eauto.
Qed.

(** The second stage, whatever happens in it. *)
Lemma main_diarize_shape apiKey transcript numSpeakers w :
  exists o evs fs',
    main_diarize apiKey transcript numSpeakers w = (o, set_fs fs' (logs evs w))
    /\ (forall name, name <> DiarizedFile config -> fs' !! name = w_fs w !! name)
    /\ requests evs =
         match json_Marshal (payload numSpeakers transcript) with
         | Ok payloadBytes => [diarizationRequest apiKey payloadBytes]
         | Err _ => []
         end
    /\ ((o = Exited 1 /\ fs' = w_fs w
         /\ (writes evs = [] \/ writes evs = [DiarizedFile config]))
        \/ (o = Returned tt /\ is_Some (fs' !! DiarizedFile config)
            /\ length (requests evs) = 1%nat
            /\ writes evs = [DiarizedFile config])).
Proof.
  assert (forall r evs,
            diarizeTranscript apiKey transcript numSpeakers w = (Returned r, logs evs w) ->
            writes evs = [] ->
            exists o evs' fs',
              main_diarize apiKey transcript numSpeakers w = (o, set_fs fs' (logs (evs ++ evs') w))
              /\ (forall name, name <> DiarizedFile config -> fs' !! name = w_fs w !! name)
              /\ requests evs' = []
              /\ ((o = Exited 1 /\ fs' = w_fs w
                   /\ (writes (evs ++ evs') = [] \/ writes (evs ++ evs') = [DiarizedFile config]))
                  \/ (o = Returned tt /\ is_Some (fs' !! DiarizedFile config)
                      /\ (exists d, r = Ok d)
                      /\ writes (evs ++ evs') = [DiarizedFile config]))) as Hstage.
  { intros r evs Hrun Hwrites. destruct r as [d|e].
    - destruct (writable (logs evs w) (DiarizedFile config)) eqn:Hwr.
      + rewrite (main_diarize_succeeded _ _ _ _ _ _ Hrun Hwr), logs_logs.
        do 3 eexists. split; [reflexivity|].
        split; [intros name Hname; rewrite w_fs_logs; by rewrite lookup_insert_ne|].
        split; [reflexivity|]. right. split; [done|].
        split; [rewrite lookup_insert_eq; eauto|]. split; [eauto|].
        by rewrite writes_app, Hwrites.
      + destruct (main_diarize_unwritable_exact _ _ _ _ _ _ Hrun Hwr) as (reason & ->).
        rewrite logs_logs. exists (Exited 1). eexists. exists (w_fs w).
        split; [by rewrite set_fs_logs_same|]. split; [done|]. split; [reflexivity|].
        left. split; [done|]. split; [done|]. right. by rewrite writes_app, Hwrites.
    - rewrite (main_diarize_failed _ _ _ _ _ _ Hrun), logs_logs.
      exists (Exited 1). eexists. exists (w_fs w).
      split; [by rewrite set_fs_logs_same|]. split; [done|]. split; [reflexivity|].
      left. split; [done|]. split; [done|]. left. by rewrite writes_app, Hwrites. }
  pose proof (diarizeTranscript_run apiKey transcript numSpeakers w) as Hrun.
  destruct (json_Marshal (payload numSpeakers transcript)) as [payloadBytes|e].
  - cbn zeta in Hrun.
    destruct (w_upstream w (diarizationRequest apiKey payloadBytes)) as [resp|e].
    + destruct (Hstage _ _ Hrun eq_refl) as (o & evs' & fs' & Hmain & Hothers & Hreq & Hend).
      exists o. eexists. exists fs'. split; [exact Hmain|]. split; [done|].
      split; [by rewrite requests_app, Hreq|].
      destruct Hend as [(-> & -> & Hw)|(-> & Hsome & _ & Hw)]; [left; done|].
      right. split; [done|]. split; [done|]. split; [by rewrite requests_app, Hreq|done].
    + destruct (Hstage _ _ Hrun eq_refl) as (o & evs' & fs' & Hmain & Hothers & Hreq & Hend).
      exists o. eexists. exists fs'. split; [exact Hmain|]. split; [done|].
      split; [by rewrite requests_app, Hreq|].
      destruct Hend as [(-> & -> & Hw)|(_ & _ & (d & [=]) & _)]. left. done.
  - rewrite <- (logs_nil w) in Hrun at 2.
    destruct (Hstage _ _ Hrun eq_refl) as (o & evs' & fs' & Hmain & Hothers & Hreq & Hend).
    exists o. eexists. exists fs'. split; [exact Hmain|]. split; [done|].
    split; [by rewrite requests_app, Hreq|].
    destruct Hend as [(-> & -> & Hw)|(_ & _ & (d & [=]) & _)]. left. done.
Qed.

End MainShape.

Section RunShape.

Context {codec : JsonCodec}.

(** The first stage, whatever happens in it. *)
Lemma main_transcript_shape apiKey audioPath w :
  exists o evs fs',
    main_transcript apiKey audioPath w = (o, set_fs fs' (logs evs w))
    /\ (forall name, name <> TranscriptionFile config -> fs' !! name = w_fs w !! name)
    /\ requests evs =
         match w_fs w !! TranscriptionFile config, uploadable w audioPath with
         | None, Some nd =>
             [transcriptionRequest apiKey audioPath (w_boundary w) (n_data nd)]
         | _, _ => []
         end
    /\ (writes evs = [] \/ writes evs = [TranscriptionFile config])
    /\ (is_Some (w_fs w !! TranscriptionFile config) -> fs' = w_fs w /\ writes evs = [])
    /\ ((o = Exited 1 /\ fs' = w_fs w)
        \/ (exists transcript, o = Returned transcript
                               /\ is_Some (fs' !! TranscriptionFile config))).
Proof.
  destruct (w_fs w !! TranscriptionFile config) as [nd|] eqn:Hfs.
  - rewrite (main_transcript_present apiKey audioPath w nd Hfs).
    destruct (n_read nd && negb (is_dir nd)).
    + eexists. eexists. exists (w_fs w). split; [by rewrite set_fs_logs_same|].
      split; [done|]. split; [reflexivity|]. split; [by left|]. split; [done|].
      right. eexists. split; [reflexivity|]. rewrite Hfs. eauto.
    + eexists. eexists. exists (w_fs w). split; [by rewrite set_fs_logs_same|].
      split; [done|]. split; [reflexivity|]. split; [by left|]. split; [done|].
      by left.
  - destruct (transcribeAudio_summary apiKey audioPath
                (logs [EvStat (TranscriptionFile config)] w))
      as (r & evs & Hrun & Hwrites & Hreq & _).
    change (uploadable (logs [EvStat (TranscriptionFile config)] w) audioPath)
      with (uploadable w audioPath) in Hreq.
    change (w_boundary (logs [EvStat (TranscriptionFile config)] w))
      with (w_boundary w) in Hreq.
    rewrite (main_transcript_fresh _ _ _ _ _ Hfs Hrun).
    assert (requests ([EvStat (TranscriptionFile config)] ++ evs) =
            match uploadable w audioPath with
            | Some nd => [transcriptionRequest apiKey audioPath (w_boundary w) (n_data nd)]
            | None => []
            end) as Hreq' by (by rewrite requests_app, Hreq).
    destruct r as [transcript|e].
    + destruct (w_creat w).
      * rewrite !logs_logs. eexists. eexists. eexists. split; [reflexivity|].
        split; [intros name Hname; by rewrite lookup_insert_ne|].
        split; [rewrite app_assoc, requests_app, Hreq', app_nil_r;
                by destruct (uploadable w audioPath)|].
        split; [right; by rewrite !writes_app, Hwrites|].
        split; [by intros [? [=]]|].
        right. eexists. split; [reflexivity|]. rewrite lookup_insert_eq. eauto.
      * rewrite !logs_logs. eexists. eexists. exists (w_fs w).
        split; [by rewrite set_fs_logs_same|]. split; [done|].
        split; [rewrite app_assoc, requests_app, Hreq', app_nil_r;
                by destruct (uploadable w audioPath)|].
        split; [right; by rewrite !writes_app, Hwrites|].
        split; [by intros [? [=]]|]. by left.
    + rewrite !logs_logs. eexists. eexists. exists (w_fs w).
      split; [by rewrite set_fs_logs_same|]. split; [done|].
      split; [rewrite app_assoc, requests_app, Hreq', app_nil_r;
              by destruct (uploadable w audioPath)|].
      split; [left; by rewrite !writes_app, Hwrites|].
      split; [by intros [? [=]]|]. by left.
Qed.

(** A whole run, whatever happens in it: [tr] and [dr] are what it sent to
    the transcription and to the chat endpoint, [wc] and [wd] the writes of
    the cache file and of the output file. *)
Lemma main_shape audioPath numSpeakers w :
  exists o evs fs' tr dr wc wd,
    main audioPath numSpeakers w = (o, set_fs fs' (logs evs w))
    /\ (o = Returned tt \/ o = Exited 1)
    /\ (forall name,
          name <> TranscriptionFile config -> name <> DiarizedFile config ->
          fs' !! name = w_fs w !! name)
    /\ requests evs = tr ++ dr
    /\ (length tr <= 1)%nat /\ (length dr <= 1)%nat
    /\ Forall (fun req => URL req = WhisperURL config) tr
    /\ Forall (fun req => URL req = ChatCompletionsURL config) dr
    /\ writes evs = wc ++ wd
    /\ (wc = [] \/ wc = [TranscriptionFile config])
    /\ (wd = [] \/ wd = [DiarizedFile config])
    /\ (is_Some (w_fs w !! TranscriptionFile config) ->
        fs' !! TranscriptionFile config = w_fs w !! TranscriptionFile config
        /\ tr = [] /\ wc = [])
    /\ (o = Exited 1 -> fs' !! DiarizedFile config = w_fs w !! DiarizedFile config)
    /\ (o = Returned tt ->
        length dr = 1%nat /\ wd = [DiarizedFile config]
        /\ is_Some (fs' !! TranscriptionFile config)
        /\ is_Some (fs' !! DiarizedFile config)).
Proof.
  pose proof files_differ as Hdiff.
  assert (forall msg,
            main audioPath numSpeakers w = (Exited 1, logs [EvPrint Stderr msg] w) ->
            exists o evs fs' tr dr wc wd,
              main audioPath numSpeakers w = (o, set_fs fs' (logs evs w))
              /\ (o = Returned tt \/ o = Exited 1)
              /\ (forall name,
                    name <> TranscriptionFile config -> name <> DiarizedFile config ->
                    fs' !! name = w_fs w !! name)
              /\ requests evs = tr ++ dr
              /\ (length tr <= 1)%nat /\ (length dr <= 1)%nat
              /\ Forall (fun req => URL req = WhisperURL config) tr
              /\ Forall (fun req => URL req = ChatCompletionsURL config) dr
              /\ writes evs = wc ++ wd
              /\ (wc = [] \/ wc = [TranscriptionFile config])
              /\ (wd = [] \/ wd = [DiarizedFile config])
              /\ (is_Some (w_fs w !! TranscriptionFile config) ->
                  fs' !! TranscriptionFile config = w_fs w !! TranscriptionFile config
                  /\ tr = [] /\ wc = [])
              /\ (o = Exited 1 ->
                  fs' !! DiarizedFile config = w_fs w !! DiarizedFile config)
              /\ (o = Returned tt ->
                  length dr = 1%nat /\ wd = [DiarizedFile config]
                  /\ is_Some (fs' !! TranscriptionFile config)
                  /\ is_Some (fs' !! DiarizedFile config))) as Husage.
  { intros msg ->. exists (Exited 1), [EvPrint Stderr msg], (w_fs w), [], [], [], [].
    rewrite set_fs_logs_same. repeat split; try done; try (cbn; lia); by left + right. }
  destruct (String.eqb_spec audioPath "") as [->|Hpath];
    [by apply (Husage usageAudio), main_no_audio|].
  destruct (String.eqb_spec (default "" (w_env w !! "OPENAI_API_KEY")) "") as [Hnokey|Hkey];
    [by apply (Husage usageKey), main_no_key|].
  clear Husage.
  destruct (w_env w !! "OPENAI_API_KEY") as [apiKey|] eqn:Henv; [|done].
  cbn [default from_option id] in Hkey.
  rewrite (main_valid audioPath numSpeakers w apiKey) by done. unfold bind at 1.
  destruct (main_transcript_shape apiKey audioPath w)
    as (o1 & evs1 & fs1 & -> & Hothers1 & Hreq1 & Hwr1 & Hcached & Hend1).
  assert ((length (requests evs1) <= 1)%nat
          /\ Forall (fun req => URL req = WhisperURL config) (requests evs1)) as [Hlen1 Hurl1].
  { rewrite Hreq1. destruct (w_fs w !! TranscriptionFile config);
      destruct (uploadable w audioPath); cbn; split; try lia; try done.
    by constructor. }
  destruct Hend1 as [[-> ->]|(transcript & -> & Hcache1)].
  - (* the first stage exits *)
    exists (Exited 1), evs1, (w_fs w), (requests evs1), [], (writes evs1), [].
    rewrite !app_nil_r.
    split; [done|]. split; [by right|].
    split; [intros name H1 _; by apply Hothers1|].
    split; [done|]. split; [done|]. split; [cbn; lia|]. split; [done|]. split; [done|].
    split; [done|]. split; [done|]. split; [by left|].
    split.
    { intros Hsome. destruct (Hcached Hsome) as [_ Hw]. split; [done|]. split; [|done].
      rewrite Hreq1. by destruct Hsome as [? ->]. }
    split; [done|]. by intros [=].
  - (* the first stage returns the transcript *)
    destruct (main_diarize_shape apiKey transcript numSpeakers (set_fs fs1 (logs evs1 w)))
      as (o2 & evs2 & fs2 & -> & Hothers2 & Hreq2 & Hend2).
    rewrite set_fs_logs, set_fs_set_fs, logs_logs. cbn [w_fs set_fs] in *.
    assert ((length (requests evs2) <= 1)%nat
            /\ Forall (fun req => URL req = ChatCompletionsURL config) (requests evs2))
      as [Hlen2 Hurl2].
    { rewrite Hreq2. destruct (json_Marshal _); cbn; split; try lia; try done.
      by constructor. }
    exists o2, (evs1 ++ evs2), fs2, (requests evs1), (requests evs2), (writes evs1),
      (writes evs2).
    split; [done|]. split; [destruct Hend2 as [(-> & _)|(-> & _)]; by left + right|].
    split; [intros name H1 H2; by rewrite Hothers2, Hothers1|].
    split; [apply requests_app|]. split; [done|]. split; [done|].
    split; [done|]. split; [done|]. split; [apply writes_app|]. split; [done|].
    split; [destruct Hend2 as [(_ & _ & Hw)|(_ & _ & _ & Hw)]; [done | by right]|].
    split.
    { intros Hsome. destruct (Hcached Hsome) as [-> Hw]. rewrite Hothers2 by done.
      split; [done|]. split; [|done]. rewrite Hreq1. by destruct Hsome as [? ->]. }
    split.
    { intros ->. destruct Hend2 as [(_ & -> & _)|([=] & _)].
      apply Hothers1. discriminate. }
    intros ->. destruct Hend2 as [([=] & _)|(_ & Hsome & Hlen & Hw)].
    split; [done|]. split; [done|]. split; [|done].
    by rewrite Hothers2.
Qed.

End RunShape.

(** ** Every run of [main] *)

Section EveryRun.

Context {codec : JsonCodec}.


(** X17: nothing is retried.  A run sends at most one request to the
    transcription endpoint and at most one to the chat endpoint, the first
    before the second, and no request to any other URL. *)
Theorem no_request_is_repeated audioPath numSpeakers w :
  exists evs tr dr,
    w_trace (main audioPath numSpeakers w).2 = w_trace w ++ evs
    /\ requests evs = tr ++ dr
    /\ (length tr <= 1)%nat
    /\ (length dr <= 1)%nat
    /\ Forall (fun req => URL req = WhisperURL config) tr
    /\ Forall (fun req => URL req = ChatCompletionsURL config) dr.
Proof.
  destruct (main_shape audioPath numSpeakers w)
    as (o & evs & fs' & tr & dr & wc & wd & -> & _ & _ & Hreq & Htr & Hdr & Hwh & Hch & _).
  by exists evs, tr, dr.
Qed.

(** X18: a run writes no file but the cache file and the output file, each
    at most once and in this order; every other path, and the environment,
    are after the run what they were before. *)
Theorem only_the_two_files_are_written audioPath numSpeakers w :
  exists evs wc wd,
    w_trace (main audioPath numSpeakers w).2 = w_trace w ++ evs
    /\ writes evs = wc ++ wd
    /\ (wc = [] \/ wc = [TranscriptionFile config])
    /\ (wd = [] \/ wd = [DiarizedFile config])
    /\ (forall name,
          name <> TranscriptionFile config -> name <> DiarizedFile config ->
          w_fs (main audioPath numSpeakers w).2 !! name = w_fs w !! name)
    /\ w_env (main audioPath numSpeakers w).2 = w_env w.
Proof.
  destruct (main_shape audioPath numSpeakers w)
    as (o & evs & fs' & tr & dr & wc & wd & -> & _ & Hothers & _ & _ & _ & _ & _
        & Hwr & Hwc & Hwd & _).
  by exists evs, wc, wd.
Qed.

(** X19: a cache file that is there is never written: whatever the run does,
    the entry of the cache file is the same after it, the run has written
    no cache and sent nothing to the transcription endpoint. *)
Theorem present_cache_is_never_rewritten audioPath numSpeakers w nd :
  w_fs w !! TranscriptionFile config = Some nd ->
  w_fs (main audioPath numSpeakers w).2 !! TranscriptionFile config = Some nd
  /\ exists evs,
       w_trace (main audioPath numSpeakers w).2 = w_trace w ++ evs
       /\ ~ In (TranscriptionFile config) (writes evs)
       /\ requestsTo (WhisperURL config) evs = [].
Proof.
  intros Hfs.
  destruct (main_shape audioPath numSpeakers w)
    as (o & evs & fs' & tr & dr & wc & wd & -> & _ & _ & Hreq & _ & _ & _ & Hch
        & Hwr & _ & Hwd & Hcached & _).
  destruct Hcached as (Hsame & -> & ->); [by rewrite Hfs|].
  cbn [snd w_fs w_trace set_fs logs]. split; [by rewrite Hsame|].
  exists evs. split; [done|]. split.
  - rewrite Hwr. cbn [app]. destruct Hwd as [-> | ->]; [by intros []|].
    intros [Heq|[]]. by apply files_differ.
  - cbn [app] in Hreq. clear -Hreq Hch. revert dr Hreq Hch.
    induction evs as [|ev evs IH]; intros dr Hreq Hch; [done|].
    destruct ev; try (by apply (IH dr)).
    cbn in Hreq. destruct dr as [|r dr]; [discriminate|]. injection Hreq as <- Hreq.
    apply Forall_cons in Hch as [Hurl Hch].
    change (requestsTo (WhisperURL config) (EvDo req :: evs))
      with ((if String.eqb (URL req) (WhisperURL config) then [req] else [])
            ++ requestsTo (WhisperURL config) evs).
    rewrite Hurl, (IH dr Hreq Hch). reflexivity.
Qed.



(** X22: when the transcript cannot be saved, the run reports it and exits
    with status 1 after the transcription: the transcript is neither cached
    nor diarized. *)
Theorem cache_write_failure_aborts audioPath numSpeakers w apiKey transcript w1 :
  audioPath <> "" ->
  w_env w !! "OPENAI_API_KEY" = Some apiKey ->
  apiKey <> "" ->
  w_fs w !! TranscriptionFile config = None ->
  w_creat w = false ->
  transcribeAudio apiKey audioPath (logs [EvStat (TranscriptionFile config)] w)
    = (Returned (Ok transcript), w1) ->
  main audioPath numSpeakers w =
    (Exited 1,
     logs [EvWriteFile (TranscriptionFile config) (bytes_of transcript);
           EvPrint Stderr ("Error writing transcription to file: " +:+
                           EACCES "open" (TranscriptionFile config) +:+ LF)] w1)
  /\ w_fs (main audioPath numSpeakers w).2 = w_fs w
  /\ requestsTo (ChatCompletionsURL config) (w_trace (main audioPath numSpeakers w).2)
     = requestsTo (ChatCompletionsURL config) (w_trace w).
Proof.
  intros Hpath Henv Hkey Hfs Hcreat Htr.
  assert (main audioPath numSpeakers w =
          (Exited 1,
           logs [EvWriteFile (TranscriptionFile config) (bytes_of transcript);
                 EvPrint Stderr ("Error writing transcription to file: " +:+
                                 EACCES "open" (TranscriptionFile config) +:+ LF)] w1))
    as Hmain.
  { rewrite (main_valid audioPath numSpeakers w apiKey) by done.
    unfold bind at 1. by rewrite (main_transcript_fresh _ _ _ _ _ Hfs Htr), Hcreat. }
  destruct (transcribeAudio_effects_aux apiKey audioPath
              (logs [EvStat (TranscriptionFile config)] w)) as (r & evs & Hrun & Hreq).
  rewrite Hrun in Htr. injection Htr as -> <-.
  rewrite Hmain. cbn [snd]. rewrite !logs_logs, w_fs_logs, w_trace_logs.
  repeat split.
  rewrite !requestsTo_app, Hreq. cbn. by rewrite app_nil_r.
Qed.


(** X24: when the diarized text cannot be written, the run reports it and
    exits with status 1; the cache file stays as the first stage left it. *)
Theorem output_write_failure_keeps_cache audioPath numSpeakers w apiKey transcript w1 d w2 :
  audioPath <> "" ->
  w_env w !! "OPENAI_API_KEY" = Some apiKey ->
  apiKey <> "" ->
  main_transcript apiKey audioPath w = (Returned transcript, w1) ->
  diarizeTranscript apiKey transcript numSpeakers w1 = (Returned (Ok d), w2) ->
  writable w2 (DiarizedFile config) = false ->
  exists reason,
    main audioPath numSpeakers w =
      (Exited 1,
       logs [EvWriteFile (DiarizedFile config) (diarizedContent d);
             EvPrint Stderr ("Error writing diarized transcript to file: "
                             +:+ reason +:+ LF)] w2)
    /\ w_fs (main audioPath numSpeakers w).2 = w_fs w1
    /\ exists nd, w_fs w1 !! TranscriptionFile config = Some nd
                  /\ string_of (n_data nd) = transcript.
Proof.
  intros Hpath Henv Hkey Hfirst Hdia Hwr.
  destruct (main_diarize_unwritable_exact _ _ _ _ _ _ Hdia Hwr) as (reason & Hexit).
  destruct (diarizeTranscript_logs apiKey transcript numSpeakers w1) as (r & evs & Hlogs & _).
  rewrite Hlogs in Hdia. injection Hdia as -> <-.
  destruct (main_transcript_returned _ _ _ _ _ Hfirst) as ((nd & Hnd & _ & Hdata) & _).
  exists reason.
  assert (main audioPath numSpeakers w =
          (Exited 1,
           logs [EvWriteFile (DiarizedFile config) (diarizedContent d);
                 EvPrint Stderr ("Error writing diarized transcript to file: "
                                 +:+ reason +:+ LF)] (logs evs w1))) as Hmain.
  { rewrite (main_valid audioPath numSpeakers w apiKey) by done.
    unfold bind at 1. by rewrite Hfirst. }
  rewrite Hmain. split; [done|]. split; [done|]. by exists nd.
Qed.

End EveryRun.

(** ** What the endpoints are sent in a run *)

Section Composition.

Context {codec : JsonCodec}.

(** X25: in a run that finds a readable cache file, the only request is the
    one to the chat endpoint, and its payload is built from the content of
    the cache file and the speaker count. *)
Theorem cached_run_sends_the_cached_text audioPath numSpeakers w apiKey nd payloadBytes :
  audioPath <> "" ->
  w_env w !! "OPENAI_API_KEY" = Some apiKey ->
  apiKey <> "" ->
  w_fs w !! TranscriptionFile config = Some nd ->
  n_read nd = true ->
  n_kind nd = Regular ->
  json_Marshal (payload numSpeakers (string_of (n_data nd))) = Ok payloadBytes ->
  exists evs,
    w_trace (main audioPath numSpeakers w).2 = w_trace w ++ evs
    /\ requests evs = [diarizationRequest apiKey payloadBytes].
Proof.
  intros Hpath Henv Hkey Hfs Hread Hkind Hpay.
  rewrite (main_cached audioPath numSpeakers w apiKey nd) by done.
  unfold is_dir. rewrite Hread, Hkind. cbn [andb negb].
  destruct (main_diarize_shape apiKey (string_of (n_data nd)) numSpeakers
              (logs [EvStat (TranscriptionFile config); EvReadFile (TranscriptionFile config);
                     EvPrint Stdout loadedMessage] w))
    as (o & evs & fs' & -> & _ & Hreq & _).
  rewrite Hpay in Hreq. rewrite logs_logs. eexists. split; [reflexivity|].
  by rewrite requests_app, Hreq.
Qed.

(** X26: in a run without a cache file whose transcription succeeds, the
    text the transcription returned is what is cached and what is diarized:
    the run sends the upload and then one chat request whose payload is built
    from that text, and the cache file holds its bytes at the end, whether
    the diarization succeeds or not. *)
Theorem fresh_run_diarizes_the_transcription audioPath numSpeakers w apiKey nd resp transcript
    payloadBytes :
  audioPath <> "" ->
  w_env w !! "OPENAI_API_KEY" = Some apiKey ->
  apiKey <> "" ->
  w_fs w !! TranscriptionFile config = None ->
  w_creat w = true ->
  uploadable w audioPath = Some nd ->
  w_upstream w (transcriptionRequest apiKey audioPath (w_boundary w) (n_data nd)) = Ok resp ->
  transcriptionResult resp = Ok transcript ->
  json_Marshal (payload numSpeakers transcript) = Ok payloadBytes ->
  exists evs,
    w_trace (main audioPath numSpeakers w).2 = w_trace w ++ evs
    /\ requests evs =
         [transcriptionRequest apiKey audioPath (w_boundary w) (n_data nd);
          diarizationRequest apiKey payloadBytes]
    /\ w_fs (main audioPath numSpeakers w).2 !! TranscriptionFile config
       = Some (created (bytes_of transcript)).
Proof.
  intros Hpath Henv Hkey Hfs Hcreat Hup Hnet Hres Hpay.
  pose proof (transcribeAudio_uploads apiKey audioPath
                (logs [EvStat (TranscriptionFile config)] w) nd Hup) as Hrun.
  cbn zeta in Hrun.
  change (w_boundary (logs [EvStat (TranscriptionFile config)] w)) with (w_boundary w) in Hrun.
  change (w_upstream (logs [EvStat (TranscriptionFile config)] w)) with (w_upstream w) in Hrun.
  rewrite Hnet, Hres in Hrun.
  assert (main audioPath numSpeakers w =
          main_diarize apiKey transcript numSpeakers
            (set_fs (<[TranscriptionFile config := created (bytes_of transcript)]> (w_fs w))
               (logs [EvStat (TranscriptionFile config); EvStat audioPath; EvOpen audioPath;
                      EvCopy audioPath;
                      EvDo (transcriptionRequest apiKey audioPath (w_boundary w) (n_data nd));
                      EvCloseBody; EvClose audioPath;
                      EvWriteFile (TranscriptionFile config) (bytes_of transcript);
                      EvPrint Stdout savedMessage] w))) as ->.
  { rewrite (main_valid audioPath numSpeakers w apiKey) by done.
    unfold bind at 1. rewrite (main_transcript_fresh _ _ _ _ _ Hfs Hrun), Hcreat.
    by rewrite !logs_logs. }
  match goal with |- context [main_diarize _ _ _ ?w1] =>
    destruct (main_diarize_shape apiKey transcript numSpeakers w1)
      as (o & evs & fs' & -> & Hothers & Hreq & _)
  end.
  rewrite Hpay in Hreq. rewrite set_fs_logs, set_fs_set_fs, logs_logs.
  cbn [snd w_fs w_trace set_fs logs]. eexists. split; [reflexivity|]. split.
  - by rewrite requests_app, Hreq.
  - pose proof (Hothers _ files_differ) as Hcache. cbn [w_fs set_fs] in Hcache.
    rewrite lookup_insert_eq in Hcache. exact Hcache.
Qed.

End Composition.

Lemma cached_run_sends_the_cached_text_witness :
  exists evs,
    w_trace (main "podcast.mp3" 2 Scenario.cached).2 = w_trace Scenario.cached ++ evs
    /\ requests evs = [diarizationRequest "sk-test" (Scenario.payloadBytes 2 "cached text")].
Proof.
  refine (cached_run_sends_the_cached_text "podcast.mp3" 2 Scenario.cached "sk-test"
            (created (bytes_of "cached text")) (Scenario.payloadBytes 2 "cached text")
            _ _ _ _ _ _ _).
  - discriminate.
  - vm_compute. reflexivity.
  - discriminate.
  - vm_compute. reflexivity.
  - reflexivity.
  - reflexivity.
  - vm_compute. reflexivity.
Defined.

Lemma fresh_run_diarizes_the_transcription_witness :
  exists evs,
    w_trace (main "podcast.mp3" 2 Scenario.limited).2 = w_trace Scenario.limited ++ evs
    /\ requests evs =
         [transcriptionRequest "sk-test" "podcast.mp3" "f00dfeed" (bytes_of "RIFF");
          diarizationRequest "sk-test" (Scenario.payloadBytes 2 "hello world")]
    /\ w_fs (main "podcast.mp3" 2 Scenario.limited).2 !! TranscriptionFile config
       = Some (created (bytes_of "hello world")).
Proof.
  refine (fresh_run_diarizes_the_transcription "podcast.mp3" 2 Scenario.limited "sk-test"
            Scenario.audio
            {| StatusCode := 200;
               Body := bytes_of (Scenario.transcriptionJSON "hello world") |}
            "hello world" (Scenario.payloadBytes 2 "hello world") _ _ _ _ _ _ _ _ _).
  - discriminate.
  - vm_compute. reflexivity.
  - discriminate.
  - vm_compute. reflexivity.
  - reflexivity.
  - vm_compute. reflexivity.
  - vm_compute. reflexivity.
  - vm_compute. reflexivity.
  - vm_compute. reflexivity.
Defined.

(** ** The further properties at concrete worlds *)

Lemma unusable_audio_sends_nothing_witness :
  (exists e evs,
     transcribeAudio "sk-test" "podcast.mp3" Edge.absent = (Returned (Err e), logs evs Edge.absent)
     /\ requests evs = []
     /\ writes evs = []
     /\ closes evs = if opened Edge.absent "podcast.mp3" then ["podcast.mp3"] else [])
  /\ (w_fs Edge.absent !! "podcast.mp3" = None ->
      transcribeAudio "sk-test" "podcast.mp3" Edge.absent =
        (Returned (Err ("failed to get file info: " +:+ ENOENT "stat" "podcast.mp3")),
         logs [EvStat "podcast.mp3"] Edge.absent)).
Proof.
  refine (unusable_audio_sends_nothing "sk-test" "podcast.mp3" Edge.absent _).
  vm_compute. reflexivity.
Defined.

Lemma audio_directory_fails_on_copy_witness :
  transcribeAudio "sk-test" "podcast.mp3" Edge.directory =
    (Returned (Err "failed to copy file content: read podcast.mp3: is a directory"),
     logs [EvStat "podcast.mp3"; EvOpen "podcast.mp3"; EvCopy "podcast.mp3";
           EvClose "podcast.mp3"] Edge.directory).
Proof.
  refine (audio_directory_fails_on_copy "sk-test" "podcast.mp3" Edge.directory Edge.folder
            _ _ _ _).
  - vm_compute. reflexivity.
  - reflexivity.
  - vm_compute. discriminate.
  - reflexivity.
Defined.

Lemma unreadable_audio_fails_on_open_witness :
  transcribeAudio "sk-test" "podcast.mp3" Edge.unreadable =
    (Returned (Err "failed to open audio file: open podcast.mp3: permission denied"),
     logs [EvStat "podcast.mp3"; EvOpen "podcast.mp3"] Edge.unreadable).
Proof.
  refine (unreadable_audio_fails_on_open "sk-test" "podcast.mp3" Edge.unreadable Edge.secret
            _ _ _).
  - vm_compute. reflexivity.
  - vm_compute. discriminate.
  - reflexivity.
Defined.

Lemma audio_at_size_limit_is_sent_witness :
  exists r evs,
    transcribeAudio "sk-test" "podcast.mp3" Edge.atLimit = (Returned r, logs evs Edge.atLimit)
    /\ requests evs = [transcriptionRequest "sk-test" "podcast.mp3" "f00dfeed" (bytes_of "RIFF")].
Proof.
  refine (audio_at_size_limit_is_sent "sk-test" "podcast.mp3" Edge.atLimit Edge.full _ _ _ _).
  - vm_compute. reflexivity.
  - reflexivity.
  - reflexivity.
  - reflexivity.
Defined.

Lemma upload_carries_file_bytes_witness :
  exists r evs req,
    transcribeAudio "sk-test" "podcast.mp3" Scenario.fresh = (Returned r, logs evs Scenario.fresh)
    /\ requests evs = [req]
    /\ Method req = "POST"
    /\ URL req = WhisperURL config
    /\ Header req =
         [("Authorization", "Bearer sk-test");
          ("Content-Type", "multipart/form-data; boundary=f00dfeed")]
    /\ ReqBody req =
         multipartHead "f00dfeed" "podcast.mp3" ++ bytes_of "RIFF" ++ multipartTail "f00dfeed".
Proof.
  refine (upload_carries_file_bytes "sk-test" "podcast.mp3" Scenario.fresh Scenario.audio _).
  vm_compute. reflexivity.
Defined.

Lemma transport_failure_is_reported_witness :
  (transcribeAudio "sk-test" "podcast.mp3" Edge.offline).1 =
    Returned (Err "failed to send request: connection refused")
  /\ (diarizeTranscript "sk-test" "hello world" 2 Edge.offline).1 =
       Returned (Err "failed to send chat completion request: connection refused").
Proof.
  destruct (transport_failure_is_reported "sk-test" "podcast.mp3" "hello world" 2 Edge.offline
              Scenario.audio (Scenario.payloadBytes 2 "hello world") "connection refused")
    as [Hwhisper Hchat].
  - vm_compute. reflexivity.
  - reflexivity.
  - intros req. reflexivity.
  - by rewrite Hwhisper, Hchat.
Defined.

Lemma unreadable_body_is_a_decode_error_witness :
  (transcribeAudio "sk-test" "podcast.mp3" Edge.garbled).1 =
    Returned (Err "failed to decode response: invalid character looking for beginning of value")
  /\ (diarizeTranscript "sk-test" "hello world" 2 Edge.garbled).1 =
       Returned (Err ("failed to decode chat completion response: "
                      +:+ "invalid character looking for beginning of value")).
Proof.
  refine (unreadable_body_is_a_decode_error "sk-test" "podcast.mp3" "hello world" 2 Edge.garbled
            Scenario.audio (Scenario.payloadBytes 2 "hello world")
            {| StatusCode := 200; Body := bytes_of "<html>" |}
            "invalid character looking for beginning of value" _ _ _ _ _).
  - vm_compute. reflexivity.
  - reflexivity.
  - intros req. reflexivity.
  - reflexivity.
  - vm_compute. reflexivity.
Defined.

Lemma short_error_body_is_reported_whole_witness :
  (transcribeAudio "sk-test" "podcast.mp3" Scenario.unavailable).1 =
    Returned (Err "non-200 response: 503, body: upstream down")
  /\ (diarizeTranscript "sk-test" "hello world" 2 Scenario.unavailable).1 =
       Returned (Err "non-200 response from chat completion: 503, body: upstream down").
Proof.
  refine (short_error_body_is_reported_whole "sk-test" "podcast.mp3" "hello world" 2
            Scenario.unavailable Scenario.audio (Scenario.payloadBytes 2 "hello world")
            {| StatusCode := 503; Body := bytes_of "upstream down" |} _ _ _ _ _).
  - vm_compute. reflexivity.
  - reflexivity.
  - intros req. reflexivity.
  - discriminate.
  - vm_compute. discriminate.
Defined.


Lemma missing_choices_is_the_no_choices_error_witness :
  (diarizeTranscript "sk-test" "hello world" 2 Scenario.speechless).1 =
    Returned (Err "no choices returned from chat completion").
Proof.
  refine (proj1 (proj2 (proj2
            (missing_choices_is_the_no_choices_error "sk-test" "hello world" 2
               Scenario.speechless (Scenario.payloadBytes 2 "hello world")
               {| StatusCode := 200;
                  Body := bytes_of ("{" +:+ Scenario.quoted "choices" +:+ ":[]}") |}
               (JObject [("choices", JArray [])]) _ _ _ _)))
            [("choices", JArray [])] "choices" (JArray []) _ _ _).
  - reflexivity.
  - vm_compute. reflexivity.
  - reflexivity.
  - vm_compute. reflexivity.
  - reflexivity.
  - reflexivity.
  - by right.
Defined.


Lemma argument_checks_come_first_witness :
  main "" 2 Scenario.fresh = (Exited 1, logs [EvPrint Stderr usageAudio] Scenario.fresh)
  /\ main "podcast.mp3" 2 Edge.absent_key
     = (Exited 1, logs [EvPrint Stderr usageKey] Edge.absent_key).
Proof.
  split.
  - refine (argument_checks_come_first "" 2 Scenario.fresh _). by left.
  - refine (argument_checks_come_first "podcast.mp3" 2 Edge.absent_key _). by right.
Defined.

Lemma transcription_failure_aborts_witness :
  main "podcast.mp3" 2 Scenario.large =
    (Exited 1,
     logs [EvPrint Stderr
             ("Error transcribing audio: audio file too large: 31457280 bytes "
              +:+ "(max: 26214400 bytes)" +:+ LF)]
       (transcribeAudio "sk-test" "podcast.mp3"
          (logs [EvStat (TranscriptionFile config)] Scenario.large)).2)
  /\ w_fs (main "podcast.mp3" 2 Scenario.large).2 !! TranscriptionFile config = None.
Proof.
  destruct (transcription_failure_aborts "podcast.mp3" 2 Scenario.large "sk-test"
              "audio file too large: 31457280 bytes (max: 26214400 bytes)"
              (transcribeAudio "sk-test" "podcast.mp3"
                 (logs [EvStat (TranscriptionFile config)] Scenario.large)).2)
    as (Hmain & _ & _ & Hcache).
  - discriminate.
  - vm_compute. reflexivity.
  - discriminate.
  - vm_compute. reflexivity.
  - vm_compute. reflexivity.
  - split; [exact Hmain | exact Hcache].
Defined.

Lemma present_cache_is_never_rewritten_witness :
  w_fs (main "podcast.mp3" 2 Scenario.cached).2 !! TranscriptionFile config
  = Some (created (bytes_of "cached text")).
Proof.
  refine (proj1 (present_cache_is_never_rewritten "podcast.mp3" 2 Scenario.cached
                   (created (bytes_of "cached text")) _)).
  vm_compute. reflexivity.
Defined.



Lemma cache_write_failure_aborts_witness :
  w_fs (main "podcast.mp3" 2 Edge.readonly).2 = w_fs Edge.readonly
  /\ requestsTo (ChatCompletionsURL config) (w_trace (main "podcast.mp3" 2 Edge.readonly).2)
     = requestsTo (ChatCompletionsURL config) (w_trace Edge.readonly).
Proof.
  refine (proj2 (cache_write_failure_aborts "podcast.mp3" 2 Edge.readonly "sk-test"
                   "hello world"
                   (transcribeAudio "sk-test" "podcast.mp3"
                      (logs [EvStat (TranscriptionFile config)] Edge.readonly)).2
                   _ _ _ _ _ _)).
  - discriminate.
  - vm_compute. reflexivity.
  - discriminate.
  - vm_compute. reflexivity.
  - reflexivity.
  - vm_compute. reflexivity.
Defined.


Lemma output_write_failure_keeps_cache_witness :
  exists reason,
    main "podcast.mp3" 2 Edge.lockedOutput =
      (Exited 1,
       logs [EvWriteFile (DiarizedFile config) (diarizedContent "Speaker 1: hello world");
             EvPrint Stderr ("Error writing diarized transcript to file: "
                             +:+ reason +:+ LF)]
         (diarizeTranscript "sk-test" "hello world" 2
            (main_transcript "sk-test" "podcast.mp3" Edge.lockedOutput).2).2)
    /\ w_fs (main "podcast.mp3" 2 Edge.lockedOutput).2
       = w_fs (main_transcript "sk-test" "podcast.mp3" Edge.lockedOutput).2
    /\ exists nd,
         w_fs (main_transcript "sk-test" "podcast.mp3" Edge.lockedOutput).2
           !! TranscriptionFile config = Some nd
         /\ string_of (n_data nd) = "hello world".
Proof.
  refine (output_write_failure_keeps_cache "podcast.mp3" 2 Edge.lockedOutput "sk-test"
            "hello world" (main_transcript "sk-test" "podcast.mp3" Edge.lockedOutput).2
            "Speaker 1: hello world"
            (diarizeTranscript "sk-test" "hello world" 2
               (main_transcript "sk-test" "podcast.mp3" Edge.lockedOutput).2).2
            _ _ _ _ _ _).
  - discriminate.
  - vm_compute. reflexivity.
  - discriminate.
  - vm_compute. reflexivity.
  - vm_compute. reflexivity.
  - vm_compute. reflexivity.
Defined.
